(** * CountryInfo REST service: handlers, upstream clients and their properties

    A shallow embedding of the Go service (status, info and exchange
    handlers with their two upstream clients) together with the properties
    stated about it.

    Conventions.
    - A Go [string] is a byte sequence: Rocq's [string], one [ascii] per byte;
      [len] is [String.length].
    - A Go [int] / [int64] is a [Z]; a [float64] is a primitive [float].
    - A Go map with string keys is a [gmap string _]; the key set used by the
      exchange handler ([map[string]struct{}]) is a [gset string].
    - Outbound HTTP calls are threaded through a small state monad whose state
      is the log of URLs requested so far by the running handler. *)

From Stdlib Require Import ZArith String Ascii Floats.
From stdpp Require Import gmap strings sorting.

Local Open Scope Z_scope.
Set Warnings "-register-all".

(** ** Go strings: bytes, runes and the [strings] helpers written out *)

Module GoString.

Definition byte_val (c : ascii) : Z := Z.of_N (N_of_ascii c).

(** [runtime.decoderune]: the decoder behind [for _, ch := range s] for a
    leading byte that is not ASCII.  Returns the rune and its width. *)
Definition runeError : Z := 65533.

Definition is_cont (c : ascii) : bool :=
  (128 <=? byte_val c) && (byte_val c <=? 191).

Definition decoderune (s : string) : Z * nat :=
  match s with
  | EmptyString => (runeError, 1%nat)
  | String b0 rest =>
    let s0 := byte_val b0 in
    if (192 <=? s0) && (s0 <? 224) then
      match rest with
      | String b1 _ =>
        let r := Z.lor (Z.shiftl (Z.land s0 31) 6) (Z.land (byte_val b1) 63) in
        if is_cont b1 && (127 <? r) then (r, 2%nat) else (runeError, 1%nat)
      | _ => (runeError, 1%nat)
      end
    else if (224 <=? s0) && (s0 <? 240) then
      match rest with
      | String b1 (String b2 _) =>
        let r := Z.lor (Z.lor (Z.shiftl (Z.land s0 15) 12)
                              (Z.shiftl (Z.land (byte_val b1) 63) 6))
                       (Z.land (byte_val b2) 63) in
        if is_cont b1 && is_cont b2 && (2047 <? r)
           && negb ((55296 <=? r) && (r <=? 57343))
        then (r, 3%nat) else (runeError, 1%nat)
      | _ => (runeError, 1%nat)
      end
    else if (240 <=? s0) && (s0 <? 248) then
      match rest with
      | String b1 (String b2 (String b3 _)) =>
        let r := Z.lor (Z.lor (Z.lor (Z.shiftl (Z.land s0 7) 18)
                                     (Z.shiftl (Z.land (byte_val b1) 63) 12))
                              (Z.shiftl (Z.land (byte_val b2) 63) 6))
                       (Z.land (byte_val b3) 63) in
        if is_cont b1 && is_cont b2 && is_cont b3
           && (65535 <? r) && (r <=? 1114111)
        then (r, 4%nat) else (runeError, 1%nat)
      | _ => (runeError, 1%nat)
      end
    else (runeError, 1%nat)
  end.

(** The runes a [range] loop over [s] yields, in order.  [skip] counts the
    bytes of the current rune still to be stepped over. *)
Fixpoint runes_from (skip : nat) (s : string) : list Z :=
  match s with
  | EmptyString => []
  | String c rest =>
    match skip with
    | S k => runes_from k rest
    | O =>
      if byte_val c <? 128 then byte_val c :: runes_from 0 rest
      else let '(r, size) := decoderune s in
           r :: runes_from (Nat.pred size) rest
    end
  end.

Definition runes (s : string) : list Z := runes_from 0 s.

(** [strings.HasPrefix] and [strings.TrimPrefix]. *)
Definition HasPrefix (s pre : string) : bool := String.prefix pre s.

Definition TrimPrefix (s pre : string) : string :=
  if HasPrefix s pre
  then String.substring (String.length pre)
                        (String.length s - String.length pre) s
  else s.

End GoString.
Export GoString.

(** ** Data model *)

(** A JSON value as [encoding/json] sees it.  Numbers keep their literal. *)
Inductive json : Type :=
| JNull
| JBool (b : bool)
| JNum (lit : string)
| JStr (s : string)
| JArr (items : list json)
| JObj (members : list (string * json)).

(** Go [error] values produced or passed on by the clients. *)
Inductive goerror : Type :=
| ErrTransport              (* httpClient.Get failed *)
| ErrDecode                 (* json.Decoder.Decode failed *)
| Errorf (msg : string).    (* fmt.Errorf *)

Record countriesName := { Common : string }.

Record countriesFlags := { PNG : string; SVG : string }.

Record countriesCountry := {
  Name       : countriesName;
  Continents : list string;
  Population : Z;
  Area       : float;
  Languages  : gmap string string;
  Borders    : list string;
  Flags      : countriesFlags;
  Capital    : list string;
  Currencies : gmap string json   (* keys are currency codes *)
}.

Record upstreamCurrencyResponse := {
  Result : string;
  Rates  : gmap string float
}.

Record errResp := { Error : string }.

Record statusResponse := {
  RestCountriesAPI : Z;
  CurrenciesAPI    : Z;
  Version          : string;
  Uptime           : Z
}.

Record infoResponse := {
  iName       : string;
  iContinents : list string;
  iPopulation : Z;
  iArea       : float;
  iLanguages  : gmap string string;
  iBorders    : list string;
  iFlag       : string;
  iCapital    : string
}.

Record exchangeResponse := {
  Country       : string;
  BaseCurrency  : string;
  ExchangeRates : gmap string float
}.

(** The value handed to [writeJSON] (its parameter has type [any]). *)
Inductive payload : Type :=
| PError (e : errResp)
| PStatus (s : statusResponse)
| PInfo (i : infoResponse)
| PExchange (x : exchangeResponse).

(** What a handler writes to its [http.ResponseWriter]. *)
Record Response := {
  ContentType : string;
  StatusCode  : Z;
  Payload     : payload
}.

(** The part of [*http.Request] the handlers read. *)
Record Request := {
  Method : string;
  Path   : string    (* r.URL.Path *)
}.

(** Outcome of one [httpClient.Get]: a transport failure (timeout included),
    or a response with its status code and body.  The body is the JSON value
    a [json.Decoder] reads from it, [None] when decoding the syntax fails. *)
Inductive GetResult : Type :=
| Failed
| Responded (status : Z) (body : option json).

(** The environment of one handler run: how the network answers the [n]-th
    outbound call of the run for a given URL, and the value
    [int64(time.Since(startTime).Seconds())] read by [uptimeSeconds]. *)
Record World := {
  respond : nat → string → GetResult;
  elapsedSeconds : Z
}.

(** Functions of Go's standard library the service calls and that are not
    part of the repository: [strings.TrimSpace], [strings.ToLower],
    [strings.ToUpper], and [encoding/json]'s decoding of one JSON value into
    a [countriesCountry] and into an [upstreamCurrencyResponse] ([None] when
    it reports an error). *)
Class GoLib := {
  TrimSpace : string → string;
  ToLower   : string → string;
  ToUpper   : string → string;
  unmarshalCountry : json → option countriesCountry;
  unmarshalRates   : json → option upstreamCurrencyResponse
}.

(** ** Constants *)

Definition version : string := "v1".
Definition countriesBaseURL : string := "http://129.241.150.113:8080/v3.1".
Definition currencyBaseURL : string := "http://129.241.150.113:9090/currency".

Definition StatusOK : Z := 200.
Definition StatusBadRequest : Z := 400.
Definition StatusNotFound : Z := 404.
Definition StatusMethodNotAllowed : Z := 405.
Definition StatusBadGateway : Z := 502.
Definition MethodGet : string := "GET".

(** ** Outbound calls: a state monad over the log of requested URLs *)

Definition Calls (A : Type) : Type := list string → A * list string.

Definition ret {A} (a : A) : Calls A := λ log, (a, log).

Definition bind {A B} (m : Calls A) (k : A → Calls B) : Calls B :=
  λ log, let '(a, log') := m log in k a log'.

Declare Scope calls_scope.
Delimit Scope calls_scope with calls.
Notation "'do' x <- m ; k" := (bind m (λ x, k))
  (at level 10, x pattern, m at level 100, k at level 200) : calls_scope.
Local Open Scope calls_scope.

(** A finished handler run: the response written and the calls made. *)
Definition run {A} (m : Calls A) : A * list string := m [].

(** ** The service *)

Section Service.

Context {lib : GoLib}.
Variable w : World.

(** [httpClient.Get(url)]: the call is logged, the network answers. *)
Definition httpClient_Get (url : string) : Calls GetResult :=
  λ log, (respond w (length log) url, log ++ [url]).

Definition writeJSON (status : Z) (v : payload) : Response :=
  {| ContentType := "application/json"; StatusCode := status; Payload := v |}.

Definition writeJSONError (status : Z) (msg : string) : Response :=
  writeJSON status (PError {| Error := msg |}).

Definition uptimeSeconds : Z := elapsedSeconds w.

Definition normalizeISO2 (code : string) : string :=
  ToLower (TrimSpace code).

(** The [range] loop of [validISO2]: [false] at the first rune outside
    ['a'..'z']. *)
Fixpoint validISO2_loop (rs : list Z) : bool :=
  match rs with
  | [] => true
  | ch :: rs' =>
    if (ch <? 97) || (ch >? 122) then false else validISO2_loop rs'
  end.

Definition validISO2 (code : string) : bool :=
  if negb (Nat.eqb (String.length code) 2) then false
  else validISO2_loop (runes code).

(** *** STATUS endpoint *)

Definition probeHTTP (url : string) : Calls Z :=
  do r <- httpClient_Get url;
  match r with
  | Failed => ret StatusBadGateway
  | Responded st _ => ret st
  end.

Definition StatusHandler (r : Request) : Calls Response :=
  if negb (String.eqb (Method r) MethodGet) then
    ret (writeJSONError StatusMethodNotAllowed "method not allowed")
  else
    do restStatus <- probeHTTP (countriesBaseURL +:+ "/alpha/no");
    do currStatus <- probeHTTP (currencyBaseURL +:+ "/NOK");
    let overall :=
      if negb (restStatus =? StatusOK) || negb (currStatus =? StatusOK)
      then StatusBadGateway else StatusOK in
    ret (writeJSON overall
           (PStatus {| RestCountriesAPI := restStatus;
                       CurrenciesAPI := currStatus;
                       Version := version;
                       Uptime := uptimeSeconds |})).

(** *** Countries client *)

(** [json.Unmarshal(raw, &arr)] for [arr []countriesCountry]: [null] leaves
    the slice empty, an array decodes element by element and reports an
    error if one of them does, any other value is an error. *)
Definition unmarshalCountries (raw : json) : option (list countriesCountry) :=
  match raw with
  | JNull => Some []
  | JArr items => mapM unmarshalCountry items
  | _ => None
  end.

Definition shapeError : goerror := Errorf "unexpected alpha response shape".

Definition fetchCountryAlpha (code : string)
  : Calls (option countriesCountry * Z * option goerror) :=
  do r <- httpClient_Get (countriesBaseURL +:+ "/alpha/" +:+ code);
  match r with
  | Failed => ret (None, 0, Some ErrTransport)
  | Responded st body =>
    if negb (st =? StatusOK) then ret (None, st, None)
    else
      match body with
      | None => ret (None, 0, Some ErrDecode)
      | Some raw =>
        (* Try array *)
        match unmarshalCountries raw with
        | Some (c :: _) => ret (Some c, StatusOK, None)
        | _ => ret (None, 0, Some shapeError)
        end
      end
  end.

Definition sortStrings (keys : list string) : list string :=
  merge_sort String.le keys.

Definition firstCurrencyCodeSorted (m : gmap string json) : string :=
  if Nat.eqb (size m) 0 then ""
  else
    let keys := (map_to_list m).*1 in
    hd "" (sortStrings keys).

(** *** INFO endpoint *)

Definition infoPrefix : string := "/countryinfo/v1/info/".

Definition InfoHandler (r : Request) : Calls Response :=
  if negb (String.eqb (Method r) MethodGet) then
    ret (writeJSONError StatusMethodNotAllowed "method not allowed")
  else
    let code := TrimPrefix (Path r) infoPrefix in
    let code := normalizeISO2 code in
    if negb (validISO2 code) then
      ret (writeJSONError StatusBadRequest
        "two_letter_country_code must be 2 letters (ISO 3166-2), e.g. /countryinfo/v1/info/no")
    else
      do (c, st, err) <- fetchCountryAlpha code;
      match err with
      | Some _ =>
        ret (writeJSONError StatusBadGateway "failed to call countries service")
      | None =>
        (* st == http.StatusNotFound || c == nil, the nil test matched first *)
        match c with
        | None => ret (writeJSONError StatusNotFound "country not found")
        | Some c =>
          if st =? StatusNotFound then
            ret (writeJSONError StatusNotFound "country not found")
          else if negb (st =? StatusOK) then
            ret (writeJSONError StatusBadGateway
                   "countries service returned non-200")
          else
            let capital := match Capital c with x :: _ => x | [] => "" end in
            let flag := PNG (Flags c) in
            let flag := if String.eqb flag "" then SVG (Flags c) else flag in
            ret (writeJSON StatusOK
                   (PInfo {| iName := Common (Name c);
                             iContinents := Continents c;
                             iPopulation := Population c;
                             iArea := Area c;
                             iLanguages := Languages c;
                             iBorders := Borders c;
                             iFlag := flag;
                             iCapital := capital |}))
        end
      end.

(** *** Currency client *)

Definition fetchRates (base : string)
  : Calls (option upstreamCurrencyResponse * Z * option goerror) :=
  do r <- httpClient_Get (currencyBaseURL +:+ "/" +:+ base);
  match r with
  | Failed => ret (None, 0, Some ErrTransport)
  | Responded st body =>
    if negb (st =? StatusOK) then ret (None, st, None)
    else
      match body ≫= unmarshalRates with
      | None => ret (None, 0, Some ErrDecode)
      | Some out => ret (Some out, StatusOK, None)
      end
  end.

(** *** EXCHANGE endpoint *)

Definition exchangePrefix : string := "/countryinfo/v1/exchange/".

(** The loop over [input.Borders].  It either returns early with the
    response it wrote ([inl]) or runs to the end with the set of neighbour
    currencies ([inr]). *)
Fixpoint collectNeighbours (base : string) (borders : list string)
    (neighCurrencies : gset string) : Calls (Response + gset string) :=
  match borders with
  | [] => ret (inr neighCurrencies)
  | cca3 :: rest =>
    let cca3 := TrimSpace cca3 in
    if String.eqb cca3 "" then collectNeighbours base rest neighCurrencies
    else
      do (nc, st2, err) <- fetchCountryAlpha cca3;
      match err with
      | Some _ =>
        ret (inl (writeJSONError StatusBadGateway
                    "failed to call countries service for neighbours"))
      | None =>
        (* st2 != http.StatusOK || nc == nil, the nil test matched first *)
        match nc with
        | None =>
          ret (inl (writeJSONError StatusBadGateway
                      "countries service failed neighbour lookup"))
        | Some nc =>
          if negb (st2 =? StatusOK) then
            ret (inl (writeJSONError StatusBadGateway
                        "countries service failed neighbour lookup"))
          else
            let ccy := ToUpper (firstCurrencyCodeSorted (Currencies nc)) in
            if String.eqb ccy "" || negb (Nat.eqb (String.length ccy) 3) then
              collectNeighbours base rest neighCurrencies
            else if String.eqb ccy base then
              collectNeighbours base rest neighCurrencies
            else
              collectNeighbours base rest ({[ ccy ]} ∪ neighCurrencies)
        end
      end
  end.

(** The loop over [neighCurrencies] that fills [outRates]. *)
Definition filterRates (rates : gmap string float)
    (neighCurrencies : gset string) : gmap string float :=
  set_fold (λ ccy outRates,
              match rates !! ccy with
              | Some v => <[ ccy := v ]> outRates
              | None => outRates
              end) ∅ neighCurrencies.

Definition ExchangeHandler (r : Request) : Calls Response :=
  if negb (String.eqb (Method r) MethodGet) then
    ret (writeJSONError StatusMethodNotAllowed "method not allowed")
  else
    let code := TrimPrefix (Path r) exchangePrefix in
    let code := normalizeISO2 code in
    if negb (validISO2 code) then
      ret (writeJSONError StatusBadRequest
        "two_letter_country_code must be 2 letters (ISO 3166-2), e.g. /countryinfo/v1/exchange/no")
    else
      (* 1) Fetch input country *)
      do (input, st, err) <- fetchCountryAlpha code;
      match err with
      | Some _ =>
        ret (writeJSONError StatusBadGateway "failed to call countries service")
      | None =>
        (* st == http.StatusNotFound || input == nil, the nil test matched first *)
        match input with
        | None => ret (writeJSONError StatusNotFound "country not found")
        | Some input =>
          if st =? StatusNotFound then
            ret (writeJSONError StatusNotFound "country not found")
          else if negb (st =? StatusOK) then
            ret (writeJSONError StatusBadGateway
                   "countries service returned non-200")
          else
            (* 2) Determine base currency (first currency key) *)
            let base := ToUpper (firstCurrencyCodeSorted (Currencies input)) in
            if String.eqb base "" || negb (Nat.eqb (String.length base) 3) then
              ret (writeJSONError StatusBadGateway
                     "input country has no valid currency")
            else
              (* 3) Collect neighbour currencies *)
              do loop <- collectNeighbours base (Borders input) ∅;
              match loop with
              | inl resp => ret resp
              | inr neighCurrencies =>
                (* If no neighbours: return empty map (still 200) *)
                if Nat.eqb (size neighCurrencies) 0 then
                  ret (writeJSON StatusOK
                         (PExchange {| Country := Common (Name input);
                                       BaseCurrency := base;
                                       ExchangeRates := ∅ |}))
                else
                  (* 4) Fetch rates once *)
                  do (ratesResp, st3, err) <- fetchRates base;
                  match err with
                  | Some _ =>
                    ret (writeJSONError StatusBadGateway
                           "failed to call currency service")
                  | None =>
                    (* st3 != http.StatusOK || ratesResp == nil *)
                    match ratesResp with
                    | None =>
                      ret (writeJSONError StatusBadGateway
                             "currency service returned non-200")
                    | Some ratesResp =>
                      if negb (st3 =? StatusOK) then
                        ret (writeJSONError StatusBadGateway
                               "currency service returned non-200")
                      else if negb (String.eqb (Result ratesResp) "")
                              && negb (String.eqb (Result ratesResp) "success")
                      then
                        ret (writeJSONError StatusBadGateway
                               "currency service returned result != success")
                      else
                        (* 5) Filter rates to neighbour currencies *)
                        let outRates :=
                          filterRates (Rates ratesResp) neighCurrencies in
                        ret (writeJSON StatusOK
                               (PExchange {| Country := Common (Name input);
                                             BaseCurrency := base;
                                             ExchangeRates := outRates |}))
                    end
                  end
              end
        end
      end.

End Service.

(** ** Properties named by the specification *)

Definition is_lower_az (c : ascii) : Prop := 97 ≤ byte_val c ≤ 122.

(** The specification's [^[a-z]{2}$]. *)
Definition matches_az2 (s : string) : Prop :=
  ∃ a b, s = String a (String b EmptyString) ∧ is_lower_az a ∧ is_lower_az b.

Definition is_upper_AZ (c : ascii) : bool :=
  (65 <=? byte_val c) && (byte_val c <=? 90).

(** "Exactly 3 uppercase letters". *)
Definition three_uppercase_letters (s : string) : bool :=
  match s with
  | String a (String b (String c EmptyString)) =>
    is_upper_AZ a && is_upper_AZ b && is_upper_AZ c
  | _ => false
  end.

(** A lookup that did not deliver a neighbour: transport failure or a status
    other than 200. *)
Definition lookup_failed (g : GetResult) : Prop :=
  match g with
  | Failed => True
  | Responded st _ => st ≠ StatusOK
  end.

(** The status code [probeHTTP] records for an outcome. *)
Definition probe_code (g : GetResult) : Z :=
  match g with
  | Failed => StatusBadGateway
  | Responded st _ => st
  end.

(** The border codes the fan-out looks up, in order: trimmed, empty ones
    skipped. *)
Definition lookup_targets `{GoLib} (borders : list string) : list string :=
  filter (λ c, c ≠ "") (TrimSpace <$> borders).

Definition alphaURL (code : string) : string :=
  countriesBaseURL +:+ "/alpha/" +:+ code.

Definition ratesURL (base : string) : string :=
  currencyBaseURL +:+ "/" +:+ base.

(** The country code a handler extracts from the request path. *)
Definition requestCode `{GoLib} (pre : string) (r : Request) : string :=
  normalizeISO2 (TrimPrefix (Path r) pre).

(** A currency code the neighbour loop may add: three bytes long, different
    from the base currency, and the upper-casing of some key. *)
Definition admissible `{GoLib} (base ccy : string) : Prop :=
  String.length ccy = 3%nat ∧ ccy ≠ base ∧ ∃ k, ccy = ToUpper k.

(** The two endpoints that take a country code, as [main] routes them. *)
Inductive Endpoint : Type := EInfo | EExchange.

Definition pathPrefix (e : Endpoint) : string :=
  match e with EInfo => infoPrefix | EExchange => exchangePrefix end.

Definition handle `{GoLib} (e : Endpoint) (w : World) (r : Request)
    : Calls Response :=
  match e with EInfo => InfoHandler w r | EExchange => ExchangeHandler w r end.

(** The input country was fetched: [fetchCountryAlpha], as the first call of
    the run, returned this record with a nil error. *)
Definition fetched_input `{GoLib} (w : World) (code : string)
    (input : countriesCountry) : Prop :=
  (fetchCountryAlpha w code []).1 = (Some input, StatusOK, None).

(** The base currency the exchange handler derives from a country record. *)
Definition base_of `{GoLib} (c : countriesCountry) : string :=
  ToUpper (firstCurrencyCodeSorted (Currencies c)).

(** The run for [code] reached its neighbour loop (the base currency passed
    the length test) and the loop ran to its end with this set, having made
    these calls. *)
Definition fanout_done `{GoLib} (w : World) (code : string)
    (input : countriesCountry) (neigh : gset string) (calls : list string) : Prop :=
  String.length (base_of input) = 3%nat ∧
  collectNeighbours w (base_of input) (Borders input) ∅ [alphaURL code]
  = (inr neigh, calls).

(** The rate set was fetched: [fetchRates], called after [calls], returned
    it with a nil error. *)
Definition fetched_rates `{GoLib} (w : World) (base : string)
    (calls : list string) (rates : upstreamCurrencyResponse) : Prop :=
  (fetchRates w base calls).1 = (Some rates, StatusOK, None).

(** ** Further notions: what a lookup delivers, what a response looks like *)

(** The answer makes [fetchCountryAlpha] return this record: status 200 and
    a body that unmarshals into a list with the record in front. *)
Definition delivers `{GoLib} (g : GetResult) (c : countriesCountry) : Prop :=
  ∃ raw cs, g = Responded StatusOK (Some raw)
            ∧ unmarshalCountries raw = Some (c :: cs).

(** The neighbour record adds this code to the neighbour set: its own base
    currency, three bytes long and different from the input's. *)
Definition contributes `{GoLib} (base : string) (nc : countriesCountry)
    (ccy : string) : Prop :=
  ccy = base_of nc ∧ String.length ccy = 3%nat ∧ ccy ≠ base.

(** The status the info handler answers with, read off the outcome of its
    one lookup. *)
Definition first_lookup_status `{GoLib} (g : GetResult) : Z :=
  match g with
  | Failed => StatusBadGateway
  | Responded st body =>
    if st =? StatusOK then
      match body ≫= unmarshalCountries with
      | Some (_ :: _) => StatusOK
      | _ => StatusBadGateway
      end
    else StatusNotFound
  end.

(** The payload type an endpoint writes on success. *)
Definition endpoint_payload (e : Endpoint) (v : payload) : Prop :=
  match e, v with
  | EInfo, PInfo _ => True
  | EExchange, PExchange _ => True
  | _, _ => False
  end.

(** A URL of the rate provider. *)
Definition is_rates_call (url : string) : bool := HasPrefix url currencyBaseURL.

(** ** A concrete library and concrete upstreams, for running the handlers *)

Module Sample.

Fixpoint string_map (f : ascii → ascii) (s : string) : string :=
  match s with
  | EmptyString => EmptyString
  | String c r => String (f c) (string_map f r)
  end.

Definition lower_byte (c : ascii) : ascii :=
  if (65 <=? byte_val c) && (byte_val c <=? 90)
  then ascii_of_N (N_of_ascii c + 32) else c.

Definition upper_byte (c : ascii) : ascii :=
  if (97 <=? byte_val c) && (byte_val c <=? 122)
  then ascii_of_N (N_of_ascii c - 32) else c.

Fixpoint trim_left (s : string) : string :=
  match s with
  | String c r => if Ascii.is_space c then trim_left r else s
  | EmptyString => EmptyString
  end.

Definition trim_space (s : string) : string :=
  String.rev (trim_left (String.rev (trim_left s))).

Fixpoint member (k : string) (ms : list (string * json)) : option json :=
  match ms with
  | [] => None
  | (k', v) :: ms' => if String.eqb k k' then Some v else member k ms'
  end.

Definition as_string (j : option json) : string :=
  match j with Some (JStr s) => s | _ => "" end.

Definition as_strings (j : option json) : list string :=
  match j with
  | Some (JArr items) =>
    omap (λ x, match x with JStr s => Some s | _ => None end) items
  | _ => []
  end.

Definition as_members (j : option json) : list (string * json) :=
  match j with Some (JObj ms) => ms | _ => [] end.

(** Decimal literals [ddd] and [ddd.ddd]. *)
Fixpoint read_decimal (s : string) (num scale : Z) (frac : bool) : Z * Z :=
  match s with
  | EmptyString => (num, scale)
  | String c r =>
    match Ascii.is_nat c with
    | Some d =>
      read_decimal r (num * 10 + Z.of_nat d)
                   (if frac then scale * 10 else scale) frac
    | None => read_decimal r num scale true
    end
  end.

Definition float_of_literal (lit : string) : float :=
  let '(num, scale) := read_decimal lit 0 1 false in
  PrimFloat.div (PrimFloat.of_uint63 (Uint63.of_Z num))
                (PrimFloat.of_uint63 (Uint63.of_Z scale)).

Definition decode_country (j : json) : option countriesCountry :=
  match j with
  | JObj ms =>
    Some {| Name := {| Common := as_string (member "common"
                                   (as_members (member "name" ms))) |};
            Continents := as_strings (member "continents" ms);
            Population := 0;
            Area := PrimFloat.zero;
            Languages := ∅;
            Borders := as_strings (member "borders" ms);
            Flags := {| PNG := as_string (member "png"
                                 (as_members (member "flags" ms)));
                        SVG := as_string (member "svg"
                                 (as_members (member "flags" ms))) |};
            Capital := as_strings (member "capital" ms);
            Currencies := list_to_map (as_members (member "currencies" ms)) |}
  | _ => None
  end.

Definition decode_rates (j : json) : option upstreamCurrencyResponse :=
  match j with
  | JObj ms =>
    Some {| Result := as_string (member "result" ms);
            Rates := list_to_map
              (omap (λ kv, match kv.2 with
                           | JNum lit => Some (kv.1, float_of_literal lit)
                           | _ => None
                           end)
                    (as_members (member "rates" ms))) |}
  | _ => None
  end.

(** The ASCII behaviour of [strings.TrimSpace], [ToLower] and [ToUpper],
    and decoders that read the fields the handlers use. *)
Definition lib : GoLib :=
  {| TrimSpace := trim_space;
     ToLower := string_map lower_byte;
     ToUpper := string_map upper_byte;
     unmarshalCountry := decode_country;
     unmarshalRates := decode_rates |}.

(** An upstream that answers by URL from a table and fails otherwise. *)
Fixpoint answer (tbl : list (string * GetResult)) (url : string) : GetResult :=
  match tbl with
  | [] => Failed
  | (u, g) :: tbl' => if String.eqb u url then g else answer tbl' url
  end.

Definition world (tbl : list (string * GetResult)) : World :=
  {| respond := λ _ url, answer tbl url; elapsedSeconds := 42 |}.

Definition country (name : string) (currencies borders : list string) : json :=
  JObj [("name", JObj [("common", JStr name)]);
        ("currencies", JObj ((λ k, (k, JObj [])) <$> currencies));
        ("borders", JArr (JStr <$> borders))].

Definition ok (j : json) : GetResult := Responded 200 (Some j).

Definition GET (path : string) : Request :=
  {| Method := "GET"; Path := path |}.

(** Norway and its neighbours; the rate provider knows SEK and EUR only. *)
Definition nordic : World :=
  world [ (alphaURL "no",  ok (JArr [country "Norway" ["NOK"] ["SWE"; "FIN"; "RUS"]]));
          (alphaURL "SWE", ok (JArr [country "Sweden" ["SEK"] ["NOR"; "FIN"]]));
          (alphaURL "FIN", ok (JArr [country "Finland" ["EUR"] ["NOR"; "SWE"; "RUS"]]));
          (alphaURL "RUS", ok (JArr [country "Russia" ["RUB"] ["NOR"; "FIN"]]));
          (ratesURL "NOK",
           ok (JObj [("result", JStr "success");
                     ("rates", JObj [("SEK", JNum "10.5"); ("EUR", JNum "11.2")])])) ].

(** The countries provider answers 500 when asked for Norway. *)
Definition broken : World :=
  world [ (alphaURL "no", Responded 500 None) ].

(** The countries provider answers with a single object, not a list. *)
Definition single_object : World :=
  world [ (alphaURL "no", ok (country "Norway" ["NOK"] [])) ].

(** The countries provider answers 200 with an empty list. *)
Definition empty_list : World :=
  world [ (alphaURL "no", ok (JArr [])) ].

(** An island whose only currency key is ["123"]. *)
Definition digits_island : World :=
  world [ (alphaURL "zz", ok (JArr [country "Island" ["123"] []])) ].

(** Sweden cannot be looked up while Norway's other neighbours can. *)
Definition sweden_down : World :=
  world [ (alphaURL "no",  ok (JArr [country "Norway" ["NOK"] ["SWE"; "FIN"]]));
          (alphaURL "SWE", Responded 503 None);
          (alphaURL "FIN", ok (JArr [country "Finland" ["EUR"] []])) ].

(** The record [decode_country] reads from [country name currencies borders]. *)
Definition record (name : string) (currencies borders : list string)
    : countriesCountry :=
  {| Name := {| Common := name |};
     Continents := [];
     Population := 0;
     Area := PrimFloat.zero;
     Languages := ∅;
     Borders := borders;
     Flags := {| PNG := ""; SVG := "" |};
     Capital := [];
     Currencies := list_to_map ((λ k, (k, JObj [])) <$> currencies) |}.

(** The rate set of [nordic]. *)
Definition nok_rates : upstreamCurrencyResponse :=
  {| Result := "success";
     Rates := list_to_map [("SEK", float_of_literal "10.5");
                           ("EUR", float_of_literal "11.2")] |}.

(** Iceland has no land borders. *)
Definition iceland : World :=
  world [ (alphaURL "is", ok (JArr [country "Iceland" ["ISK"] []])) ].

(** Panama lists two currencies. *)
Definition panama : World :=
  world [ (alphaURL "pa", ok (JArr [country "Panama" ["USD"; "PAB"] []])) ].

(** Austria shares the euro with Germany; Switzerland uses the franc.  The
    rate provider lists the euro itself as well. *)
Definition austria : World :=
  world [ (alphaURL "at",  ok (JArr [country "Austria" ["EUR"] ["DEU"; "CHE"]]));
          (alphaURL "DEU", ok (JArr [country "Germany" ["EUR"] ["AUT"; "CHE"]]));
          (alphaURL "CHE", ok (JArr [country "Switzerland" ["CHF"] ["AUT"; "DEU"]]));
          (ratesURL "EUR",
           ok (JObj [("result", JStr "success");
                     ("rates", JObj [("EUR", JNum "1"); ("CHF", JNum "0.95")])])) ].

Definition POST (path : string) : Request :=
  {| Method := "POST"; Path := path |}.

(** Norway with a capital and a vector flag only. *)
Definition norway_full : json :=
  JObj [("name", JObj [("common", JStr "Norway")]);
        ("capital", JArr [JStr "Oslo"]);
        ("flags", JObj [("png", JStr ""); ("svg", JStr "https://flags.example/no.svg")]);
        ("continents", JArr [JStr "Europe"]);
        ("borders", JArr [JStr "SWE"]);
        ("currencies", JObj [("NOK", JObj [])])].

Definition norway_full_record : countriesCountry :=
  {| Name := {| Common := "Norway" |};
     Continents := ["Europe"];
     Population := 0;
     Area := PrimFloat.zero;
     Languages := ∅;
     Borders := ["SWE"];
     Flags := {| PNG := ""; SVG := "https://flags.example/no.svg" |};
     Capital := ["Oslo"];
     Currencies := list_to_map [("NOK", JObj [])] |}.

Definition oslo : World :=
  world [ (alphaURL "no", ok (JArr [norway_full])) ].

(** Sweden answers 200 with an empty list. *)
Definition garbled_neighbour : World :=
  world [ (alphaURL "no",  ok (JArr [country "Norway" ["NOK"] ["SWE"]]));
          (alphaURL "SWE", ok (JArr [])) ].

(** The rate provider answers 500. *)
Definition rates_down : World :=
  world [ (alphaURL "no",  ok (JArr [country "Norway" ["NOK"] ["SWE"]]));
          (alphaURL "SWE", ok (JArr [country "Sweden" ["SEK"] ["NOR"]]));
          (ratesURL "NOK", Responded 500 None) ].

(** A currency map with an empty key beside a regular one. *)
Definition blank_key : World :=
  world [ (alphaURL "xx", ok (JArr [country "Nowhere" [""; "NOK"] []])) ].

(** The euro sign: one character, the three bytes E2 82 AC in UTF-8, with no
    upper-case form of its own. *)
Definition euro_sign : string :=
  String (ascii_of_nat 226)
    (String (ascii_of_nat 130) (String (ascii_of_nat 172) EmptyString)).

(** A country whose only currency key is the euro sign. *)
Definition euroland : World :=
  world [ (alphaURL "eu", ok (JArr [country "Euroland" [euro_sign] []])) ].

(** Both probes of the status endpoint answer 200. *)
Definition healthy : World :=
  world [ (alphaURL "no", Responded 200 None);
          (ratesURL "NOK", Responded 200 None) ].

End Sample.

(** ** Validation *)

Section Validation.

Ltac split_andb :=
  repeat match goal with
  | H : _ && _ = true |- _ => apply andb_prop in H; destruct H
  end.

(** Every rune [decoderune] yields lies above ['z']. *)
Lemma decoderune_above_z s : 122 < (decoderune s).1.
Proof.
  unfold decoderune, runeError.
  repeat case_match; simpl; try lia; split_andb;
    match goal with H : (_ <? _) = true |- _ => apply Z.ltb_lt in H; lia end.
Qed.

Lemma validISO2_loop_cons ch rs :
  validISO2_loop (ch :: rs) = true ↔ (97 ≤ ch ≤ 122) ∧ validISO2_loop rs = true.
Proof.
  simpl. rewrite Z.gtb_ltb.
  destruct (Z.ltb_spec ch 97), (Z.ltb_spec 122 ch); simpl;
    split; try (intros; discriminate); try (intros [? ?]; lia).
  - intros; split; [lia | done].
  - by intros [_ ?].
Qed.

Lemma runes_cons c rest :
  ∃ r k, runes_from 0 (String c rest) = r :: runes_from k rest
         ∧ (byte_val c < 128 → r = byte_val c ∧ k = 0%nat)
         ∧ (128 ≤ byte_val c → 122 < r).
Proof.
  cbn [runes_from]. destruct (byte_val c <? 128) eqn:Hc.
  - apply Z.ltb_lt in Hc. exists (byte_val c), 0%nat.
    split; [reflexivity|]. split; [intros; split; reflexivity | intros; lia].
  - apply Z.ltb_ge in Hc.
    pose proof (decoderune_above_z (String c rest)) as Hr.
    destruct (decoderune (String c rest)) as [r size]. simpl in Hr.
    exists r, (Nat.pred size).
    split; [reflexivity|]. split; intros; lia.
Qed.

(** [validISO2] accepts exactly the strings of two bytes in [a-z]. *)
Lemma validISO2_spec s : validISO2 s = true ↔ matches_az2 s.
Proof.
  unfold validISO2, matches_az2, is_lower_az, runes. split.
  - destruct s as [|a [|b [|c s]]]; simpl String.length; simpl negb;
      try discriminate.
    destruct (runes_cons a (String b "")) as (r & k & -> & Ha & Ha').
    rewrite validISO2_loop_cons. intros [Hr Hrest].
    assert (byte_val a < 128) as Hlt by lia.
    destruct (Ha Hlt) as [-> ->].
    destruct (runes_cons b "") as (r' & k' & Hb & Hb1 & Hb2).
    rewrite Hb in Hrest. apply validISO2_loop_cons in Hrest as [Hr' _].
    assert (byte_val b < 128) as Hlt' by lia.
    destruct (Hb1 Hlt') as [-> _]. eauto.
  - intros (a & b & -> & Ha & Hb). simpl String.length. simpl negb.
    destruct (runes_cons a (String b "")) as (r & k & -> & Ha1 & _).
    destruct Ha1 as [-> ->]; [lia|].
    destruct (runes_cons b "") as (r' & k' & -> & Hb1 & _).
    destruct Hb1 as [-> ->]; [lia|].
    rewrite !validISO2_loop_cons. simpl. done.
Qed.

Lemma validISO2_false s : ¬ matches_az2 s → validISO2 s = false.
Proof.
  intros Hn. destruct (validISO2 s) eqn:E; [|done].
  exfalso. by apply Hn, validISO2_spec.
Qed.

End Validation.

(** ** The countries client *)

Section CountriesClient.

Context {lib : GoLib}.
Variable w : World.

Lemma fetchCountryAlpha_calls code log :
  (fetchCountryAlpha w code log).2 = log ++ [alphaURL code].
Proof.
  unfold fetchCountryAlpha, bind, httpClient_Get, ret, alphaURL.
  repeat case_match; reflexivity.
Qed.

Lemma fetchCountryAlpha_eq code log res calls :
  fetchCountryAlpha w code log = (res, calls) →
  calls = log ++ [alphaURL code].
Proof.
  intros E. pose proof (fetchCountryAlpha_calls code log) as H.
  by rewrite E in H.
Qed.

Lemma fetchCountryAlpha_failed code log :
  respond w (length log) (alphaURL code) = Failed →
  (fetchCountryAlpha w code log).1 = (None, 0, Some ErrTransport).
Proof.
  intros E. unfold fetchCountryAlpha, bind, httpClient_Get, ret.
  fold (alphaURL code). by rewrite E.
Qed.

Lemma fetchCountryAlpha_non200 code log st body :
  respond w (length log) (alphaURL code) = Responded st body →
  st ≠ StatusOK →
  (fetchCountryAlpha w code log).1 = (None, st, None).
Proof.
  intros E Hst. unfold fetchCountryAlpha, bind, httpClient_Get, ret.
  fold (alphaURL code). rewrite E.
  destruct (Z.eqb_spec st StatusOK); [done | reflexivity].
Qed.

(** A record is only ever returned for a 200 response whose body decodes
    as a non-empty list, and then with status 200 and a nil error. *)
Lemma fetchCountryAlpha_some code log c st err :
  (fetchCountryAlpha w code log).1 = (Some c, st, err) →
  st = StatusOK ∧ err = None ∧
  ∃ raw cs, respond w (length log) (alphaURL code)
            = Responded StatusOK (Some raw)
            ∧ unmarshalCountries raw = Some (c :: cs).
Proof.
  unfold fetchCountryAlpha, bind, httpClient_Get, ret.
  fold (alphaURL code).
  destruct (respond w (length log) (alphaURL code)) as [|st' body];
    [discriminate|].
  destruct (Z.eqb_spec st' StatusOK) as [->|]; simpl; [|discriminate].
  destruct body as [raw|]; [|discriminate].
  destruct (unmarshalCountries raw) as [[|c' cs]|] eqn:E; try discriminate.
  intros [= -> <- <-]. eauto 6.
Qed.

(** A failed lookup never delivers a record. *)
Lemma fetchCountryAlpha_lookup_failed code log :
  lookup_failed (respond w (length log) (alphaURL code)) →
  ∃ st err, (fetchCountryAlpha w code log).1 = (None, st, err).
Proof.
  destruct (respond w (length log) (alphaURL code)) as [|st body] eqn:E;
    simpl; intros Hf.
  - rewrite (fetchCountryAlpha_failed _ _ E). eauto.
  - rewrite (fetchCountryAlpha_non200 _ _ _ _ E Hf). eauto.
Qed.

(** A JSON object is not accepted by the array decoding. *)
Lemma fetchCountryAlpha_object code log members :
  respond w (length log) (alphaURL code)
  = Responded StatusOK (Some (JObj members)) →
  (fetchCountryAlpha w code log).1 = (None, 0, Some shapeError).
Proof.
  intros E. unfold fetchCountryAlpha, bind, httpClient_Get, ret.
  fold (alphaURL code). by rewrite E.
Qed.

Lemma fetchCountryAlpha_empty_array code log :
  respond w (length log) (alphaURL code)
  = Responded StatusOK (Some (JArr [])) →
  (fetchCountryAlpha w code log).1 = (None, 0, Some shapeError).
Proof.
  intros E. unfold fetchCountryAlpha, bind, httpClient_Get, ret.
  fold (alphaURL code). by rewrite E.
Qed.

End CountriesClient.

(** ** Responses of the info and exchange handlers to the first lookup *)

Section FirstLookup.

Context {lib : GoLib}.
Variable w : World.

Lemma InfoHandler_unfold r :
  Method r = MethodGet →
  validISO2 (requestCode infoPrefix r) = true →
  ∀ c st err calls,
    fetchCountryAlpha w (requestCode infoPrefix r) [] = ((c, st, err), calls) →
    (run (InfoHandler w r)).2 = calls ∧
    StatusCode (run (InfoHandler w r)).1 =
      match err, c with
      | Some _, _ => StatusBadGateway
      | None, None => StatusNotFound
      | None, Some _ =>
        if st =? StatusNotFound then StatusNotFound
        else if negb (st =? StatusOK) then StatusBadGateway else StatusOK
      end.
Proof.
  intros Hm Hv c st err calls E.
  unfold run, InfoHandler, bind. rewrite Hm, String.eqb_refl. cbn [negb]. cbv zeta.
  change (normalizeISO2 (TrimPrefix (Path r) infoPrefix))
    with (requestCode infoPrefix r).
  rewrite Hv. cbn [negb].
  rewrite E. destruct err; [done|]. destruct c; [|done].
  unfold ret. repeat case_match; done.
Qed.

Lemma ExchangeHandler_early r :
  Method r = MethodGet →
  validISO2 (requestCode exchangePrefix r) = true →
  ∀ st err calls,
    fetchCountryAlpha w (requestCode exchangePrefix r) []
    = ((None, st, err), calls) →
    (run (ExchangeHandler w r)).2 = calls ∧
    StatusCode (run (ExchangeHandler w r)).1 =
      match err with
      | Some _ => StatusBadGateway
      | None => StatusNotFound
      end.
Proof.
  intros Hm Hv st err calls E.
  unfold run, ExchangeHandler, bind. rewrite Hm, String.eqb_refl. cbn [negb]. cbv zeta.
  change (normalizeISO2 (TrimPrefix (Path r) exchangePrefix))
    with (requestCode exchangePrefix r).
  rewrite Hv. cbn [negb].
  rewrite E. destruct err; done.
Qed.

End FirstLookup.

(** ** Claims about the first lookup *)

Section FirstLookupClaims.

Context {lib : GoLib}.
Variable w : World.

(** Either handler, once the code is valid, answers from the outcome of
    its first lookup when that lookup delivers no record. *)
Lemma handle_no_record e r st err calls :
  Method r = MethodGet →
  validISO2 (requestCode (pathPrefix e) r) = true →
  fetchCountryAlpha w (requestCode (pathPrefix e) r) []
  = ((None, st, err), calls) →
  (run (handle e w r)).2 = calls ∧
  StatusCode (run (handle e w r)).1 =
    match err with Some _ => StatusBadGateway | None => StatusNotFound end.
Proof.
  intros Hm Hv E. destruct e; simpl in *.
  - destruct (InfoHandler_unfold w r Hm Hv _ _ _ _ E) as [-> ->]. done.
  - by apply (ExchangeHandler_early w r Hm Hv st).
Qed.

(** Whatever status other than 200 the countries provider answers with,
    both handlers respond 404. *)
Lemma non200_answered_404 e r st body :
  Method r = MethodGet →
  validISO2 (requestCode (pathPrefix e) r) = true →
  respond w 0 (alphaURL (requestCode (pathPrefix e) r)) = Responded st body →
  st ≠ StatusOK →
  StatusCode (run (handle e w r)).1 = StatusNotFound.
Proof.
  intros Hm Hv E Hst.
  pose proof (fetchCountryAlpha_non200 w _ [] _ _ E Hst) as Hf.
  destruct (fetchCountryAlpha w (requestCode (pathPrefix e) r) [])
    as [res calls] eqn:Hrun. simpl in Hf. subst res.
  by destruct (handle_no_record e r _ _ _ Hm Hv Hrun) as [_ ->].
Qed.

(** C3. When the trimmed, lower-cased code does not match [^[a-z]{2}$],
    the info and exchange handlers answer a GET with 400 and make no
    outbound call. *)
Theorem invalid_code_rejected_before_any_call e r :
  Method r = MethodGet →
  ¬ matches_az2 (requestCode (pathPrefix e) r) →
  StatusCode (run (handle e w r)).1 = StatusBadRequest
  ∧ (run (handle e w r)).2 = [].
Proof.
  intros Hm Hbad. apply validISO2_false in Hbad.
  destruct e; unfold handle, run, InfoHandler, ExchangeHandler;
    rewrite Hm, String.eqb_refl; cbn [negb]; cbv zeta.
  - change (normalizeISO2 (TrimPrefix (Path r) infoPrefix))
      with (requestCode (pathPrefix EInfo) r).
    rewrite Hbad. done.
  - change (normalizeISO2 (TrimPrefix (Path r) exchangePrefix))
      with (requestCode (pathPrefix EExchange) r).
    rewrite Hbad. done.
Qed.

(** C10. A 200 answer whose body is the empty JSON array makes the client
    report the shape error, and both handlers respond 502. *)
Theorem empty_array_is_shape_error_502 e r :
  Method r = MethodGet →
  validISO2 (requestCode (pathPrefix e) r) = true →
  respond w 0 (alphaURL (requestCode (pathPrefix e) r))
  = Responded StatusOK (Some (JArr [])) →
  (fetchCountryAlpha w (requestCode (pathPrefix e) r) []).1
  = (None, 0, Some shapeError)
  ∧ StatusCode (run (handle e w r)).1 = StatusBadGateway.
Proof.
  intros Hm Hv E.
  pose proof (fetchCountryAlpha_empty_array w _ [] E) as Hf.
  split; [exact Hf|].
  destruct (fetchCountryAlpha w (requestCode (pathPrefix e) r) [])
    as [res calls] eqn:Hrun. simpl in Hf. subst res.
  by destruct (handle_no_record e r _ _ _ Hm Hv Hrun) as [_ ->].
Qed.

End FirstLookupClaims.

(** The code [n1] is refused by the info endpoint without a call. *)
Lemma invalid_code_rejected_witness :
  StatusCode (run (handle (H:=Sample.lib) EInfo Sample.nordic
                     (Sample.GET "/countryinfo/v1/info/n1"))).1 = 400
  ∧ (run (handle (H:=Sample.lib) EInfo Sample.nordic
            (Sample.GET "/countryinfo/v1/info/n1"))).2 = [].
Proof.
  apply (invalid_code_rejected_before_any_call (lib:=Sample.lib)).
  - reflexivity.
  - intros (a & b & Heq & _ & Hb). vm_compute in Heq.
    injection Heq as <- <-. vm_compute in Hb. destruct Hb as [Hb _].
    by apply Hb.
Defined.

(** An empty list from the countries provider is a shape error. *)
Lemma empty_array_witness :
  (fetchCountryAlpha (lib:=Sample.lib) Sample.empty_list "no" []).1
  = (None, 0, Some shapeError)
  ∧ StatusCode (run (handle (H:=Sample.lib) EExchange Sample.empty_list
                       (Sample.GET "/countryinfo/v1/exchange/no"))).1 = 502.
Proof.
  apply (empty_array_is_shape_error_502 (lib:=Sample.lib) Sample.empty_list
           EExchange (Sample.GET "/countryinfo/v1/exchange/no"));
    reflexivity.
Defined.

(** C1. With the countries provider answering 500, a status that is neither
    200 nor 404, and no transport error, both handlers respond 404. *)
Lemma upstream_500_answered_404 :
  respond Sample.broken 0 (alphaURL "no") = Responded 500 None
  ∧ (fetchCountryAlpha (lib:=Sample.lib) Sample.broken "no" []).1
    = (None, 500, None)
  ∧ StatusCode (run (InfoHandler (lib:=Sample.lib) Sample.broken
                       (Sample.GET "/countryinfo/v1/info/no"))).1 = 404
  ∧ StatusCode (run (ExchangeHandler (lib:=Sample.lib) Sample.broken
                       (Sample.GET "/countryinfo/v1/exchange/no"))).1 = 404.
Proof. repeat split; reflexivity. Qed.

(** C2. A 200 answer carrying a single JSON object that decodes as a country
    record is turned down: the client returns the shape error instead of the
    record, and the info handler responds 502. *)
Lemma single_object_rejected :
  respond Sample.single_object 0 (alphaURL "no")
  = Responded 200 (Some (Sample.country "Norway" ["NOK"] []))
  ∧ unmarshalCountry (GoLib:=Sample.lib) (Sample.country "Norway" ["NOK"] [])
    = Some (Sample.record "Norway" ["NOK"] [])
  ∧ (fetchCountryAlpha (lib:=Sample.lib) Sample.single_object "no" []).1
    = (None, 0, Some shapeError)
  ∧ StatusCode (run (InfoHandler (lib:=Sample.lib) Sample.single_object
                       (Sample.GET "/countryinfo/v1/info/no"))).1 = 502.
Proof. repeat split; reflexivity. Qed.

(** ** The status endpoint *)

Section Status.

Variable w : World.

Lemma probeHTTP_run url log :
  probeHTTP w url log
  = (probe_code (respond w (length log) url), log ++ [url]).
Proof.
  unfold probeHTTP, bind, httpClient_Get, ret, probe_code.
  by destruct (respond w (length log) url).
Qed.

Lemma probe_code_200 g :
  probe_code g = StatusOK ↔ ∃ body, g = Responded StatusOK body.
Proof.
  destruct g as [|st body]; simpl; split.
  - discriminate.
  - intros [? [=]].
  - intros ->. eauto.
  - by intros [? [= ->]].
Qed.

(** C9. On a GET the status handler probes both upstreams; it responds 200
    exactly when both probes answered 200 and 502 in every other case (a
    transport failure counting as 502), and its body always carries both
    probe codes, the version and the uptime in seconds. *)
Theorem status_endpoint_reports_both_probes r :
  Method r = MethodGet →
  (StatusCode (run (StatusHandler w r)).1 = StatusOK ↔
     (∃ body, respond w 0 (alphaURL "no") = Responded StatusOK body) ∧
     (∃ body, respond w 1 (ratesURL "NOK") = Responded StatusOK body))
  ∧ (StatusCode (run (StatusHandler w r)).1 ≠ StatusOK →
     StatusCode (run (StatusHandler w r)).1 = StatusBadGateway)
  ∧ Payload (run (StatusHandler w r)).1
    = PStatus {| RestCountriesAPI := probe_code (respond w 0 (alphaURL "no"));
                 CurrenciesAPI := probe_code (respond w 1 (ratesURL "NOK"));
                 Version := "v1";
                 Uptime := elapsedSeconds w |}
  ∧ probe_code Failed = StatusBadGateway
  ∧ (run (StatusHandler w r)).2 = [alphaURL "no"; ratesURL "NOK"].
Proof.
  intros Hm. unfold run, StatusHandler, bind.
  rewrite Hm, String.eqb_refl. cbn [negb].
  rewrite !probeHTTP_run. cbn [length app].
  change (countriesBaseURL +:+ "/alpha/no") with (alphaURL "no").
  change (currencyBaseURL +:+ "/NOK") with (ratesURL "NOK").
  rewrite <- !probe_code_200.
  set (c1 := probe_code (respond w 0 (alphaURL "no"))).
  set (c2 := probe_code (respond w 1 (ratesURL "NOK"))).
  unfold ret, writeJSON; cbn [fst snd StatusCode Payload].
  repeat split; try done;
    destruct (Z.eqb_spec c1 StatusOK), (Z.eqb_spec c2 StatusOK);
    cbn [negb orb]; try done; try tauto.
  all: intros [? ?]; done.
Qed.

End Status.

(** Both upstreams healthy: the status endpoint answers 200. *)
Lemma status_endpoint_witness :
  StatusCode (run (StatusHandler Sample.healthy
                     (Sample.GET "/countryinfo/v1/status/"))).1 = 200
  ∧ Payload (run (StatusHandler Sample.healthy
                    (Sample.GET "/countryinfo/v1/status/"))).1
    = PStatus {| RestCountriesAPI := 200; CurrenciesAPI := 200;
                 Version := "v1"; Uptime := 42 |}.
Proof.
  destruct (status_endpoint_reports_both_probes Sample.healthy
              (Sample.GET "/countryinfo/v1/status/") eq_refl)
    as (Hiff & _ & Hbody & _).
  split; [|exact Hbody].
  apply Hiff. split; eexists; reflexivity.
Defined.

(** ** Currency selection *)

Section CurrencySelection.

Lemma firstCurrencyCodeSorted_empty :
  firstCurrencyCodeSorted ∅ = "".
Proof. reflexivity. Qed.

Lemma sortStrings_head_least keys k rest :
  sortStrings keys = k :: rest →
  k ∈ keys ∧ ∀ k', k' ∈ keys → String.le k k'.
Proof.
  intros E. unfold sortStrings in E.
  pose proof (merge_sort_Permutation String.le keys) as Hp.
  pose proof (StronglySorted_merge_sort String.le keys) as Hs.
  rewrite E in Hp, Hs. split.
  - rewrite <- Hp. left.
  - intros k' Hk'. rewrite <- Hp in Hk'.
    apply elem_of_cons in Hk' as [->|Hin]; [done|].
    apply StronglySorted_inv in Hs as [_ Hall].
    by eapply Forall_forall in Hall.
Qed.

(** The key picked from a non-empty currency map is one of its keys and
    no key is smaller in byte-wise lexicographic order. *)
Lemma firstCurrencyCodeSorted_least (m : gmap string json) :
  m ≠ ∅ →
  firstCurrencyCodeSorted m ∈ dom m ∧
  ∀ k, k ∈ dom m → String.le (firstCurrencyCodeSorted m) k.
Proof.
  intros Hne. unfold firstCurrencyCodeSorted.
  assert (size m ≠ 0%nat) as Hsz by (by intros ?%map_size_empty_inv).
  destruct (Nat.eqb_spec (size m) 0) as [|_]; [done|].
  assert (∀ k, k ∈ (map_to_list m).*1 ↔ k ∈ dom m) as Hkeys.
  { intros k. rewrite elem_of_dom. split.
    - intros ((k0 & v) & -> & Hin)%list_elem_of_fmap.
      apply elem_of_map_to_list in Hin. eauto.
    - intros [v Hv]. apply list_elem_of_fmap. exists (k, v).
      split; [done|]. by apply elem_of_map_to_list. }
  destruct (sortStrings (map_to_list m).*1) as [|k rest] eqn:E.
  - exfalso.
    pose proof (merge_sort_Permutation String.le (map_to_list m).*1) as Hp.
    unfold sortStrings in E. rewrite E in Hp.
    apply Permutation_nil_l in Hp. symmetry in Hp.
    apply fmap_nil_inv, map_to_list_empty_iff in Hp. done.
  - apply sortStrings_head_least in E as [Hin Hle]. simpl. split.
    + by apply Hkeys.
    + intros k' Hk'. by apply Hle, Hkeys.
Qed.

End CurrencySelection.

(** ** The neighbour fan-out *)

Section FanOut.

Context {lib : GoLib}.
Variable w : World.

Lemma lookup_targets_cons cca3 rest :
  lookup_targets (cca3 :: rest) =
    if String.eqb (TrimSpace cca3) "" then lookup_targets rest
    else TrimSpace cca3 :: lookup_targets rest.
Proof.
  unfold lookup_targets. rewrite fmap_cons, filter_cons.
  destruct (String.eqb_spec (TrimSpace cca3) ""); case_decide; done.
Qed.

(** What the loop has done when it stops, either way. *)
Lemma collectNeighbours_spec base borders :
  ∀ acc log res calls,
  collectNeighbours w base borders acc log = (res, calls) →
  match res with
  | inl resp =>
    StatusCode resp = StatusBadGateway
    ∧ (∃ e, Payload resp = PError e)
    ∧ ∃ n, calls = log ++ (alphaURL <$> take n (lookup_targets borders))
  | inr neigh =>
    calls = log ++ (alphaURL <$> lookup_targets borders)
    ∧ acc ⊆ neigh
    ∧ (∀ ccy, ccy ∈ neigh → ccy ∈ acc ∨ admissible base ccy)
    ∧ (∀ k c, lookup_targets borders !! k = Some c →
         ¬ lookup_failed (respond w (length log + k) (alphaURL c)))
  end.
Proof.
  induction borders as [|cca3 rest IH]; intros acc log res calls.
  - cbn [collectNeighbours]. unfold ret. intros [= <- <-].
    cbn. rewrite app_nil_r. repeat split; [done|auto|]. intros k c [=].
  - cbn [collectNeighbours]. cbv zeta. rewrite lookup_targets_cons.
    destruct (String.eqb_spec (TrimSpace cca3) "") as [_|Hne].
    { apply IH. }
    unfold bind.
    destruct (fetchCountryAlpha w (TrimSpace cca3) log)
      as [[[nc st2] err] log1] eqn:Hf.
    pose proof (fetchCountryAlpha_eq w _ _ _ _ Hf) as ->.
    assert (abort : ∀ msg,
      (inl (writeJSONError StatusBadGateway msg),
       log ++ [alphaURL (TrimSpace cca3)]) = (res, calls) →
      match res with
      | inl resp =>
        StatusCode resp = StatusBadGateway
        ∧ (∃ e, Payload resp = PError e)
        ∧ ∃ n, calls = log ++ (alphaURL <$>
                 take n (TrimSpace cca3 :: lookup_targets rest))
      | inr _ => False
      end).
    { intros msg [= <- <-]. repeat split; [by eexists|]. by exists 1%nat. }
    destruct err as [e|].
    { unfold ret. intros E. specialize (abort _ E). by destruct res. }
    destruct nc as [nc|].
    2:{ unfold ret. intros E. specialize (abort _ E). by destruct res. }
    assert ((fetchCountryAlpha w (TrimSpace cca3) log).1
            = (Some nc, st2, None)) as Hsome by (by rewrite Hf).
    apply fetchCountryAlpha_some in Hsome as (-> & _ & raw & cs & Hresp & _).
    cbn [negb Z.eqb StatusOK Pos.eqb].
    set (ccy := ToUpper (firstCurrencyCodeSorted (Currencies nc))).
    assert (step : ∀ acc',
      acc ⊆ acc' →
      (∀ x, x ∈ acc' → x ∈ acc ∨ admissible base x) →
      collectNeighbours w base rest acc'
        (log ++ [alphaURL (TrimSpace cca3)]) = (res, calls) →
      match res with
      | inl resp =>
        StatusCode resp = StatusBadGateway
        ∧ (∃ e, Payload resp = PError e)
        ∧ ∃ n, calls = log ++ (alphaURL <$>
                 take n (TrimSpace cca3 :: lookup_targets rest))
      | inr neigh =>
        calls = log ++ (alphaURL <$> TrimSpace cca3 :: lookup_targets rest)
        ∧ acc ⊆ neigh
        ∧ (∀ x, x ∈ neigh → x ∈ acc ∨ admissible base x)
        ∧ (∀ k c, (TrimSpace cca3 :: lookup_targets rest) !! k = Some c →
             ¬ lookup_failed (respond w (length log + k) (alphaURL c)))
      end).
    { intros acc' Hsub Hadm E. apply IH in E. destruct res as [resp|neigh].
      - destruct E as (? & ? & n & ->). repeat split; [done..|].
        exists (S n). by rewrite <- app_assoc.
      - destruct E as (-> & Hsub' & Hadm' & Hall). repeat split.
        + by rewrite <- app_assoc.
        + set_solver.
        + intros x Hx. destruct (Hadm' x Hx) as [?|?]; auto.
        + intros [|k] c Hk.
          * injection Hk as <-. rewrite Nat.add_0_r, Hresp. simpl. auto.
          * specialize (Hall k c Hk). rewrite length_app in Hall.
            simpl in Hall, Hk.
            by replace (length log + S k)%nat
              with (length log + 1 + k)%nat by lia. }
    destruct (String.eqb_spec ccy "") as [|Hnonempty]; cbn [orb].
    { apply step; [done|auto]. }
    destruct (Nat.eqb_spec (String.length ccy) 3) as [Hlen|]; cbn [negb].
    2:{ apply step; [done|auto]. }
    destruct (String.eqb_spec ccy base) as [|Hbase].
    { apply step; [done|auto]. }
    apply step; [set_solver|].
    intros x [->%elem_of_singleton|?]%elem_of_union; [|auto].
    right. repeat split; [done..|]. by eexists.
Qed.

(** Started from the empty set, the loop only collects admissible codes. *)
Lemma collectNeighbours_admissible base borders log neigh calls :
  collectNeighbours w base borders ∅ log = (inr neigh, calls) →
  ∀ ccy, ccy ∈ neigh → admissible base ccy.
Proof.
  intros E ccy Hin. apply collectNeighbours_spec in E as (_ & _ & Hadm & _).
  destruct (Hadm ccy Hin) as [?|?]; [set_solver|done].
Qed.

End FanOut.

(** ** The exchange handler after the input country is fetched *)

Section ExchangeRun.

Context {lib : GoLib}.
Variable w : World.

Lemma fetchRates_calls base log :
  (fetchRates w base log).2 = log ++ [ratesURL base].
Proof.
  unfold fetchRates, bind, httpClient_Get, ret, ratesURL.
  repeat case_match; reflexivity.
Qed.

(** [outRates] holds exactly the neighbour currencies the rate set knows,
    each with the rate found there. *)
Lemma filterRates_lookup rates (neigh : gset string) ccy v :
  filterRates rates neigh !! ccy = Some v ↔ ccy ∈ neigh ∧ rates !! ccy = Some v.
Proof.
  unfold filterRates. revert ccy v.
  apply (set_fold_ind_L (λ out X, ∀ ccy v,
           out !! ccy = Some v ↔ ccy ∈ X ∧ rates !! ccy = Some v)).
  - intros ccy v. rewrite lookup_empty. split; [done|].
    intros [[]%not_elem_of_empty _].
  - intros x X out Hx IH ccy v. rewrite elem_of_union, elem_of_singleton.
    destruct (rates !! x) as [vx|] eqn:Ex.
    + destruct (decide (ccy = x)) as [->|Hne].
      * rewrite lookup_insert_eq. split.
        -- intros [= <-]. auto.
        -- intros [_ Hr]. congruence.
      * rewrite lookup_insert_ne by done. rewrite IH. tauto.
    + rewrite IH. split.
      * intros [? ?]. auto.
      * intros [[->|?] Hr]; [congruence|done].
Qed.

Lemma length_3_nonempty s :
  String.length s = 3%nat →
  String.eqb s "" || negb (Nat.eqb (String.length s) 3) = false.
Proof. intros E. rewrite E. by destruct s. Qed.

Variable r : Request.
Variable input : countriesCountry.
Hypothesis Hmethod : Method r = MethodGet.
Hypothesis Hvalid : validISO2 (requestCode exchangePrefix r) = true.
Hypothesis Hfetched : fetched_input w (requestCode exchangePrefix r) input.

Lemma fetched_input_run :
  fetchCountryAlpha w (requestCode exchangePrefix r) []
  = ((Some input, StatusOK, None), [alphaURL (requestCode exchangePrefix r)]).
Proof using Hfetched.
  unfold fetched_input in Hfetched.
  destruct (fetchCountryAlpha w (requestCode exchangePrefix r) [])
    as [res calls] eqn:E.
  apply fetchCountryAlpha_eq in E as ->. simpl in Hfetched. by subst.
Qed.

(** The run, from the base-currency test on. *)
Lemma ExchangeHandler_fetched :
  run (ExchangeHandler w r) =
    if String.eqb (base_of input) ""
       || negb (Nat.eqb (String.length (base_of input)) 3)
    then (writeJSONError StatusBadGateway "input country has no valid currency",
          [alphaURL (requestCode exchangePrefix r)])
    else
      let '(loop, calls) :=
        collectNeighbours w (base_of input) (Borders input) ∅
          [alphaURL (requestCode exchangePrefix r)] in
      match loop with
      | inl resp => (resp, calls)
      | inr neigh =>
        if Nat.eqb (size neigh) 0 then
          (writeJSON StatusOK
             (PExchange {| Country := Common (Name input);
                           BaseCurrency := base_of input;
                           ExchangeRates := ∅ |}), calls)
        else
          let '((ratesResp, st3, err), calls') :=
            fetchRates w (base_of input) calls in
          (match err, ratesResp with
           | Some _, _ =>
             writeJSONError StatusBadGateway "failed to call currency service"
           | None, None =>
             writeJSONError StatusBadGateway "currency service returned non-200"
           | None, Some rr =>
             if negb (st3 =? StatusOK) then
               writeJSONError StatusBadGateway
                 "currency service returned non-200"
             else if negb (String.eqb (Result rr) "")
                     && negb (String.eqb (Result rr) "success")
             then writeJSONError StatusBadGateway
                    "currency service returned result != success"
             else writeJSON StatusOK
                    (PExchange {| Country := Common (Name input);
                                  BaseCurrency := base_of input;
                                  ExchangeRates :=
                                    filterRates (Rates rr) neigh |})
           end, calls')
      end.
Proof using Hmethod Hvalid Hfetched.
  unfold run, ExchangeHandler, bind.
  rewrite Hmethod, String.eqb_refl. cbn [negb]. cbv zeta.
  change (normalizeISO2 (TrimPrefix (Path r) exchangePrefix))
    with (requestCode exchangePrefix r).
  rewrite Hvalid. cbn [negb]. rewrite fetched_input_run.
  cbn [Z.eqb StatusOK StatusNotFound Pos.eqb negb].
  change (ToUpper (firstCurrencyCodeSorted (Currencies input)))
    with (base_of input).
  destruct (String.eqb (base_of input) ""
            || negb (Nat.eqb (String.length (base_of input)) 3)); [done|].
  destruct (collectNeighbours w (base_of input) (Borders input) ∅
              [alphaURL (requestCode exchangePrefix r)]) as [[resp|neigh] calls];
    [done|].
  destruct (Nat.eqb (size neigh) 0); [done|].
  destruct (fetchRates w (base_of input) calls) as [[[rr st3] err] calls'].
  destruct err; [done|]. destruct rr; [|done].
  unfold ret. repeat case_match; done.
Qed.

End ExchangeRun.

(** ** Claims about the exchange workflow *)

Section ExchangeClaims.

Context {lib : GoLib}.
Variable w : World.
Variable r : Request.
Variable input : countriesCountry.
Hypothesis Hmethod : Method r = MethodGet.
Hypothesis Hvalid : validISO2 (requestCode exchangePrefix r) = true.
Hypothesis Hfetched : fetched_input w (requestCode exchangePrefix r) input.

Local Abbreviation code := (requestCode exchangePrefix r).
Local Abbreviation base := (base_of input).
Local Abbreviation result := (run (ExchangeHandler w r)).

Lemma alphaURL_not_rates c : HasPrefix (alphaURL c) currencyBaseURL = false.
Proof. reflexivity. Qed.

(** Without border codes the loop ends at once with the empty set. *)
Lemma fanout_done_no_borders :
  String.length base = 3%nat → Borders input = [] →
  fanout_done w code input ∅ [alphaURL code].
Proof. intros Hlen Hb. split; [done|]. by rewrite Hb. Qed.

(** C4, as the code has it. The base currency of a fetched input country is
    the smallest key of its currency map in byte-wise lexicographic order,
    upper-cased.  An empty map, or a code whose length in bytes is not 3, is
    answered with 502 "input country has no valid currency" after the first
    lookup.  A code of 3 bytes is the one the run goes on with: the
    neighbour loop is run against it, the rate provider is asked for it, and
    every exchange response reports it, among them the 200 response for an
    empty neighbour set and the 200 response for a fetched rate set with an
    acceptable result marker. *)
Theorem base_currency_smallest_key_uppercased :
  ToUpper "" = "" →
  (Currencies input ≠ ∅ →
     firstCurrencyCodeSorted (Currencies input) ∈ dom (Currencies input)
     ∧ ∀ k, k ∈ dom (Currencies input) →
            String.le (firstCurrencyCodeSorted (Currencies input)) k)
  ∧ (∀ x, Payload result.1 = PExchange x →
          BaseCurrency x
          = ToUpper (firstCurrencyCodeSorted (Currencies input)))
  ∧ (Currencies input = ∅
     ∨ String.length (ToUpper (firstCurrencyCodeSorted (Currencies input)))
       ≠ 3%nat →
     StatusCode result.1 = StatusBadGateway
     ∧ result
       = (writeJSONError StatusBadGateway "input country has no valid currency",
          [alphaURL code]))
  ∧ (String.length (ToUpper (firstCurrencyCodeSorted (Currencies input)))
     = 3%nat →
     ∀ neigh calls,
       collectNeighbours w
         (ToUpper (firstCurrencyCodeSorted (Currencies input)))
         (Borders input) ∅ [alphaURL code] = (inr neigh, calls) →
       (neigh = ∅ →
          result
          = (writeJSON StatusOK
               (PExchange
                  {| Country := Common (Name input);
                     BaseCurrency :=
                       ToUpper (firstCurrencyCodeSorted (Currencies input));
                     ExchangeRates := ∅ |}), calls))
       ∧ (neigh ≠ ∅ →
            result.2
            = calls ++ [ratesURL
                          (ToUpper (firstCurrencyCodeSorted (Currencies input)))]
            ∧ ∀ rates,
                fetched_rates w
                  (ToUpper (firstCurrencyCodeSorted (Currencies input)))
                  calls rates →
                Result rates = "" ∨ Result rates = "success" →
                result.1
                = writeJSON StatusOK
                    (PExchange
                       {| Country := Common (Name input);
                          BaseCurrency :=
                            ToUpper
                              (firstCurrencyCodeSorted (Currencies input));
                          ExchangeRates :=
                            filterRates (Rates rates) neigh |}))).
Proof using Hmethod Hvalid Hfetched.
  intros Hupper. split; [apply firstCurrencyCodeSorted_least|].
  rewrite (ExchangeHandler_fetched w r input Hmethod Hvalid Hfetched).
  unfold base_of. split; [|split].
  - intros x.
    destruct (_ || _); [discriminate|].
    destruct (collectNeighbours _ _ _ _ _) as [[resp|neigh] calls] eqn:E.
    { apply collectNeighbours_spec in E as (_ & [e He] & _).
      simpl. rewrite He. discriminate. }
    destruct (Nat.eqb (size neigh) 0); [by intros [= <-]|].
    destruct (fetchRates _ _ _) as [[[rr st3] err] calls'].
    destruct err; [discriminate|]. destruct rr; [|discriminate].
    simpl. repeat case_match; try discriminate. by intros [= <-].
  - intros [Hempty|Hlen].
    + rewrite Hempty, firstCurrencyCodeSorted_empty, Hupper. done.
    + destruct (Nat.eqb_spec
        (String.length (ToUpper (firstCurrencyCodeSorted (Currencies input))))
        3); [done|].
      cbn [negb]. by rewrite orb_true_r.
  - intros Hlen neigh calls Hloop.
    rewrite (length_3_nonempty _ Hlen), Hloop. split.
    + intros ->. reflexivity.
    + intros Hne.
      destruct (Nat.eqb_spec (size neigh) 0) as [Hsz|_].
      { apply size_empty_inv, leibniz_equiv in Hsz. done. }
      unfold fetched_rates.
      pose proof (fetchRates_calls w
        (ToUpper (firstCurrencyCodeSorted (Currencies input))) calls) as Hcalls.
      destruct (fetchRates w _ calls) as [[[rr st3] err] calls'].
      simpl in Hcalls. subst calls'. cbn [fst snd]. split; [reflexivity|].
      intros rates [= -> -> ->] Hres. cbn [Z.eqb StatusOK Pos.eqb negb].
      by destruct Hres as [-> | ->].
Qed.

(** C5. If the lookup of any neighbour fails in transport or answers with a
    status other than 200, the response is the error 502: no exchange data
    is returned. *)
Theorem neighbour_failure_aborts_with_502 k cca3 :
  lookup_targets (Borders input) !! k = Some cca3 →
  lookup_failed (respond w (S k) (alphaURL cca3)) →
  StatusCode result.1 = StatusBadGateway ∧ ∃ e, Payload result.1 = PError e.
Proof using Hmethod Hvalid Hfetched.
  intros Hk Hfail.
  rewrite (ExchangeHandler_fetched w r input Hmethod Hvalid Hfetched).
  destruct (_ || _); [by split; [|eexists]|].
  destruct (collectNeighbours _ _ _ _ _) as [[resp|neigh] calls] eqn:E;
    apply collectNeighbours_spec in E.
  - destruct E as (? & ? & _). done.
  - destruct E as (_ & _ & _ & Hall). by destruct (Hall k cca3 Hk).
Qed.

(** C6. When the neighbour loop ends with the empty set, the response is
    200 with an empty rate mapping, and the calls made are the country
    lookups only: no URL of the rate provider is requested. *)
Theorem empty_neighbour_set_skips_rate_provider calls :
  fanout_done w code input ∅ calls →
  result = (writeJSON StatusOK
              (PExchange {| Country := Common (Name input);
                            BaseCurrency := base;
                            ExchangeRates := ∅ |}), calls)
  ∧ calls = alphaURL code :: (alphaURL <$> lookup_targets (Borders input))
  ∧ ∀ url, url ∈ calls → HasPrefix url currencyBaseURL = false.
Proof using Hmethod Hvalid Hfetched.
  intros [Hlen Hloop].
  rewrite (ExchangeHandler_fetched w r input Hmethod Hvalid Hfetched).
  rewrite (length_3_nonempty _ Hlen), Hloop.
  apply collectNeighbours_spec in Hloop as (-> & _).
  split; [reflexivity|]. split; [reflexivity|].
  intros url [->|Hin]%elem_of_cons; [apply alphaURL_not_rates|].
  apply list_elem_of_fmap in Hin as (c & -> & _). apply alphaURL_not_rates.
Qed.

(** C7. Once the neighbour loop has ended, a 200 response maps a currency
    to a rate exactly when the currency is in the neighbour set and the
    fetched rate set has that rate for it; and with a fetched rate set whose
    result marker is empty or "success" the response is 200 whichever
    neighbour currencies the rate set lacks. *)
Theorem exchange_rates_are_rated_neighbour_currencies neigh calls :
  fanout_done w code input neigh calls →
  (StatusCode result.1 = StatusOK →
     ∃ x, Payload result.1 = PExchange x ∧
       ∀ ccy v, ExchangeRates x !! ccy = Some v ↔
         ccy ∈ neigh ∧ ∃ rates, fetched_rates w base calls rates
                                 ∧ Rates rates !! ccy = Some v)
  ∧ (∀ rates, neigh ≠ ∅ → fetched_rates w base calls rates →
       Result rates = "" ∨ Result rates = "success" →
       StatusCode result.1 = StatusOK
       ∧ result.2 = calls ++ [ratesURL base]).
Proof using Hmethod Hvalid Hfetched.
  intros [Hlen Hloop].
  rewrite (ExchangeHandler_fetched w r input Hmethod Hvalid Hfetched).
  rewrite (length_3_nonempty _ Hlen), Hloop.
  destruct (Nat.eqb_spec (size neigh) 0) as [Hsz|Hsz].
  { apply size_empty_inv in Hsz. apply leibniz_equiv in Hsz. subst neigh.
    split; [|by intros ? []].
    intros _. eexists. split; [reflexivity|]. intros ccy v. simpl.
    rewrite lookup_empty. split; [done|]. by intros [[]%not_elem_of_empty _]. }
  unfold fetched_rates.
  pose proof (fetchRates_calls w base calls) as Hcalls.
  destruct (fetchRates w base calls) as [[[rr st3] err] calls'].
  simpl in Hcalls. subst calls'. cbn [fst snd]. split.
  - destruct err; [discriminate|]. destruct rr as [rr|]; [|discriminate].
    destruct (Z.eqb_spec st3 StatusOK) as [->|]; [|discriminate].
    cbn [negb]. destruct (_ && _); [discriminate|].
    intros _. eexists. split; [reflexivity|]. intros ccy v.
    cbn [ExchangeRates]. rewrite filterRates_lookup. split.
    + intros [? ?]. eauto.
    + intros [? (rates & [= <-] & ?)]. done.
  - intros rates _ [= -> -> ->] Hres. cbn [Z.eqb StatusOK Pos.eqb negb].
    split; [|reflexivity]. by destruct Hres as [-> | ->].
Qed.

End ExchangeClaims.

(** ** Every success of the exchange handler has this shape *)

Section ExchangeSuccess.

Context {lib : GoLib}.
Variable w : World.

(** A 200 response is only written for a GET with a valid code whose input
    country was fetched and whose neighbour loop ran to its end. *)
Lemma exchange_success_inversion r :
  StatusCode (run (ExchangeHandler w r)).1 = StatusOK →
  Method r = MethodGet
  ∧ validISO2 (requestCode exchangePrefix r) = true
  ∧ ∃ input neigh calls,
      fetched_input w (requestCode exchangePrefix r) input
      ∧ fanout_done w (requestCode exchangePrefix r) input neigh calls.
Proof.
  intros H200.
  assert (Method r = MethodGet) as Hm.
  { revert H200. unfold run, ExchangeHandler.
    destruct (String.eqb_spec (Method r) MethodGet); [done|discriminate]. }
  assert (validISO2 (requestCode exchangePrefix r) = true) as Hv.
  { revert H200. unfold run, ExchangeHandler.
    rewrite Hm, String.eqb_refl. cbn [negb]. cbv zeta.
    change (normalizeISO2 (TrimPrefix (Path r) exchangePrefix))
      with (requestCode exchangePrefix r).
    destruct (validISO2 (requestCode exchangePrefix r)); [done|discriminate]. }
  split; [done|]. split; [done|].
  destruct (fetchCountryAlpha w (requestCode exchangePrefix r) [])
    as [[[c st] err] calls1] eqn:Hf.
  destruct c as [input|].
  2:{ destruct (ExchangeHandler_early w r Hm Hv _ _ _ Hf) as [_ Hst].
      rewrite Hst in H200. destruct err; discriminate. }
  assert ((fetchCountryAlpha w (requestCode exchangePrefix r) []).1
          = (Some input, st, err)) as Hsome by (by rewrite Hf).
  pose proof Hsome as Hfetched.
  apply fetchCountryAlpha_some in Hsome as (-> & -> & _).
  rewrite (ExchangeHandler_fetched w r input Hm Hv Hfetched) in H200.
  exists input.
  destruct (String.eqb (base_of input) "") eqn:Hne; [discriminate|].
  destruct (Nat.eqb_spec (String.length (base_of input)) 3) as [Hlen|];
    [|discriminate]. cbn [negb orb] in H200.
  destruct (collectNeighbours w (base_of input) (Borders input) ∅
              [alphaURL (requestCode exchangePrefix r)])
    as [[resp|neigh] calls] eqn:Hloop.
  { apply collectNeighbours_spec in Hloop as (Hst & _).
    simpl in H200. rewrite Hst in H200. discriminate. }
  exists neigh, calls. done.
Qed.

End ExchangeSuccess.

(** ** The exchange claims at work on concrete upstreams *)

(** Of Panama's keys USD and PAB the handler picks PAB and reports it in
    its 200 response. *)
Lemma base_currency_witness :
  run (ExchangeHandler (lib:=Sample.lib) Sample.panama
         (Sample.GET "/countryinfo/v1/exchange/pa"))
  = (writeJSON 200 (PExchange {| Country := "Panama";
                                 BaseCurrency := "PAB";
                                 ExchangeRates := ∅ |}),
     [alphaURL "pa"]).
Proof.
  exact (proj1 (proj2 (proj2 (proj2
    (base_currency_smallest_key_uppercased (lib:=Sample.lib) Sample.panama
       (Sample.GET "/countryinfo/v1/exchange/pa")
       (Sample.record "Panama" ["USD"; "PAB"] [])
       eq_refl eq_refl eq_refl eq_refl)))
    eq_refl ∅ [alphaURL "pa"] eq_refl) eq_refl).
Defined.

(** The length test counts bytes, not characters: a currency key that is
    the single character of the euro sign, three bytes long, is accepted as
    base currency and the response is 200. *)
Lemma one_character_key_answered_200 :
  String.length Sample.euro_sign = 3%nat
  ∧ length (runes Sample.euro_sign) = 1%nat
  ∧ ToUpper (GoLib:=Sample.lib) Sample.euro_sign = Sample.euro_sign
  ∧ run (ExchangeHandler (lib:=Sample.lib) Sample.euroland
           (Sample.GET "/countryinfo/v1/exchange/eu"))
    = (writeJSON 200 (PExchange {| Country := "Euroland";
                                   BaseCurrency := Sample.euro_sign;
                                   ExchangeRates := ∅ |}),
       [alphaURL "eu"]).
Proof. repeat split; reflexivity. Qed.

(** Sweden answers 503, so the request for Norway fails. *)
Lemma neighbour_failure_witness :
  StatusCode (run (ExchangeHandler (lib:=Sample.lib) Sample.sweden_down
                     (Sample.GET "/countryinfo/v1/exchange/no"))).1 = 502
  ∧ ∃ e, Payload (run (ExchangeHandler (lib:=Sample.lib) Sample.sweden_down
                         (Sample.GET "/countryinfo/v1/exchange/no"))).1
         = PError e.
Proof.
  apply (neighbour_failure_aborts_with_502 (lib:=Sample.lib) Sample.sweden_down
           (Sample.GET "/countryinfo/v1/exchange/no")
           (Sample.record "Norway" ["NOK"] ["SWE"; "FIN"])
           eq_refl eq_refl eq_refl 0%nat "SWE" eq_refl).
  vm_compute. discriminate.
Defined.

(** Iceland has no borders; only its own lookup is made. *)
Lemma empty_neighbour_set_witness :
  run (ExchangeHandler (lib:=Sample.lib) Sample.iceland
         (Sample.GET "/countryinfo/v1/exchange/is"))
  = (writeJSON 200 (PExchange {| Country := "Iceland";
                                 BaseCurrency := "ISK";
                                 ExchangeRates := ∅ |}),
     [alphaURL "is"]).
Proof.
  refine (proj1
    (empty_neighbour_set_skips_rate_provider (lib:=Sample.lib) Sample.iceland
       (Sample.GET "/countryinfo/v1/exchange/is")
       (Sample.record "Iceland" ["ISK"] [])
       eq_refl eq_refl eq_refl [alphaURL "is"] _)).
  apply (fanout_done_no_borders (lib:=Sample.lib) Sample.iceland
           (Sample.GET "/countryinfo/v1/exchange/is")
           (Sample.record "Iceland" ["ISK"] [])); reflexivity.
Defined.

(** Norway's neighbours use SEK, EUR and RUB; the rate set has no RUB and
    the response is still 200. *)
Lemma exchange_rates_witness :
  StatusCode (run (ExchangeHandler (lib:=Sample.lib) Sample.nordic
                     (Sample.GET "/countryinfo/v1/exchange/no"))).1 = 200
  ∧ (run (ExchangeHandler (lib:=Sample.lib) Sample.nordic
            (Sample.GET "/countryinfo/v1/exchange/no"))).2
    = [alphaURL "no"; alphaURL "SWE"; alphaURL "FIN"; alphaURL "RUS";
       ratesURL "NOK"].
Proof.
  refine (proj2
    (exchange_rates_are_rated_neighbour_currencies (lib:=Sample.lib)
       Sample.nordic (Sample.GET "/countryinfo/v1/exchange/no")
       (Sample.record "Norway" ["NOK"] ["SWE"; "FIN"; "RUS"])
       eq_refl eq_refl eq_refl
       ({[ "SEK" ]} ∪ {[ "EUR" ]} ∪ {[ "RUB" ]})
       [alphaURL "no"; alphaURL "SWE"; alphaURL "FIN"; alphaURL "RUS"] _)
    Sample.nok_rates _ _ _).
  - split; [reflexivity | vm_compute; reflexivity].
  - vm_compute. discriminate.
  - vm_compute. reflexivity.
  - right. reflexivity.
Defined.

(** Output codes need not be letters: a currency key made of digits passes
    the length test and is reported as base currency. *)
Lemma digits_base_currency_in_output :
  run (ExchangeHandler (lib:=Sample.lib) Sample.digits_island
         (Sample.GET "/countryinfo/v1/exchange/zz"))
  = (writeJSON 200 (PExchange {| Country := "Island";
                                 BaseCurrency := "123";
                                 ExchangeRates := ∅ |}),
     [alphaURL "zz"])
  ∧ three_uppercase_letters "123" = false.
Proof. split; reflexivity. Qed.

(** * Further properties of the handlers *)

(** ** Methods other than GET *)

Section OtherMethods.

Context {lib : GoLib}.
Variable w : World.

(** X1. A request whose method is not GET is answered 405 with the error
    "method not allowed" by each of the three handlers, whatever its path,
    and no outbound call is made. *)
Theorem other_methods_answered_405 r :
  Method r ≠ MethodGet →
  run (StatusHandler w r)
  = (writeJSONError StatusMethodNotAllowed "method not allowed", [])
  ∧ run (InfoHandler w r)
    = (writeJSONError StatusMethodNotAllowed "method not allowed", [])
  ∧ run (ExchangeHandler w r)
    = (writeJSONError StatusMethodNotAllowed "method not allowed", []).
Proof.
  intros Hm. apply String.eqb_neq in Hm.
  unfold run, StatusHandler, InfoHandler, ExchangeHandler.
  rewrite Hm. done.
Qed.

End OtherMethods.

(** A POST to the exchange path with an invalid code is still a 405. *)
Lemma other_methods_witness :
  run (ExchangeHandler (lib:=Sample.lib) Sample.nordic
         (Sample.POST "/countryinfo/v1/exchange/n1"))
  = (writeJSONError 405 "method not allowed", []).
Proof.
  refine (proj2 (proj2
    (other_methods_answered_405 (lib:=Sample.lib) Sample.nordic
       (Sample.POST "/countryinfo/v1/exchange/n1") _))).
  discriminate.
Defined.

(** ** The info handler *)

Section InfoRun.

Context {lib : GoLib}.
Variable w : World.

Lemma fetchCountryAlpha_run code log :
  fetchCountryAlpha w code log
  = (match respond w (length log) (alphaURL code) with
     | Failed => (None, 0, Some ErrTransport)
     | Responded st body =>
       if negb (st =? StatusOK) then (None, st, None)
       else match body with
            | None => (None, 0, Some ErrDecode)
            | Some raw =>
              match unmarshalCountries raw with
              | Some (c :: _) => (Some c, StatusOK, None)
              | _ => (None, 0, Some shapeError)
              end
            end
     end, log ++ [alphaURL code]).
Proof.
  unfold fetchCountryAlpha, bind, httpClient_Get, ret. fold (alphaURL code).
  repeat case_match; reflexivity.
Qed.

(** A record is fetched exactly when the answer delivers it. *)
Lemma fetchCountryAlpha_delivers code log c :
  (fetchCountryAlpha w code log).1 = (Some c, StatusOK, None)
  ↔ delivers (respond w (length log) (alphaURL code)) c.
Proof.
  split.
  - intros (_ & _ & raw & cs & ? & ?)%fetchCountryAlpha_some.
    by exists raw, cs.
  - intros (raw & cs & Hg & Hu). rewrite fetchCountryAlpha_run, Hg. simpl.
    by rewrite Hu.
Qed.

(** The run of the info handler once its country is fetched. *)
Lemma InfoHandler_fetched r input :
  Method r = MethodGet →
  validISO2 (requestCode infoPrefix r) = true →
  fetched_input w (requestCode infoPrefix r) input →
  run (InfoHandler w r)
  = (writeJSON StatusOK
       (PInfo {| iName := Common (Name input);
                 iContinents := Continents input;
                 iPopulation := Population input;
                 iArea := Area input;
                 iLanguages := Languages input;
                 iBorders := Borders input;
                 iFlag := if String.eqb (PNG (Flags input)) ""
                          then SVG (Flags input) else PNG (Flags input);
                 iCapital := hd "" (Capital input) |}),
     [alphaURL (requestCode infoPrefix r)]).
Proof.
  intros Hm Hv Hf. unfold fetched_input in Hf.
  unfold run, InfoHandler, bind. rewrite Hm, String.eqb_refl. cbn [negb].
  cbv zeta.
  change (normalizeISO2 (TrimPrefix (Path r) infoPrefix))
    with (requestCode infoPrefix r).
  rewrite Hv. cbn [negb].
  destruct (fetchCountryAlpha w (requestCode infoPrefix r) [])
    as [res calls] eqn:E.
  apply fetchCountryAlpha_eq in E as ->. simpl in Hf. subst res.
  cbn [Z.eqb StatusOK StatusNotFound Pos.eqb negb]. unfold ret.
  by destruct (Capital input).
Qed.

(** X3. For a GET with a valid code whose country is fetched, the info
    handler makes that one lookup and answers 200 with an info payload that
    passes on name, continents, population, area, languages and borders
    unchanged; the capital is the first entry of the capital list, or empty
    when the list is; the flag is the PNG address, or the SVG address when
    the PNG address is empty. *)
Theorem info_success_projection r input :
  Method r = MethodGet →
  validISO2 (requestCode infoPrefix r) = true →
  fetched_input w (requestCode infoPrefix r) input →
  ∃ i, run (InfoHandler w r)
       = (writeJSON StatusOK (PInfo i), [alphaURL (requestCode infoPrefix r)])
    ∧ iName i = Common (Name input)
    ∧ iContinents i = Continents input
    ∧ iPopulation i = Population input
    ∧ iArea i = Area input
    ∧ iLanguages i = Languages input
    ∧ iBorders i = Borders input
    ∧ iCapital i = match Capital input with [] => "" | x :: _ => x end
    ∧ (PNG (Flags input) ≠ "" → iFlag i = PNG (Flags input))
    ∧ (PNG (Flags input) = "" → iFlag i = SVG (Flags input)).
Proof.
  intros Hm Hv Hf. eexists. split; [by apply InfoHandler_fetched|].
  cbn. repeat split; try done;
    intros E; by destruct (String.eqb_spec (PNG (Flags input)) "").
Qed.

(** X4. For a GET with a valid code the info handler makes exactly one call,
    the lookup of that code, and its status is decided by the answer alone:
    502 for a transport failure, 404 for every status other than 200, and
    for a 200 answer 200 when the body unmarshals into a non-empty list of
    countries and 502 otherwise. *)
Theorem info_status_by_first_answer r :
  Method r = MethodGet →
  validISO2 (requestCode infoPrefix r) = true →
  (run (InfoHandler w r)).2 = [alphaURL (requestCode infoPrefix r)]
  ∧ StatusCode (run (InfoHandler w r)).1
    = first_lookup_status
        (respond w 0 (alphaURL (requestCode infoPrefix r))).
Proof.
  intros Hm Hv.
  pose proof (fetchCountryAlpha_run (requestCode infoPrefix r) []) as E.
  destruct (fetchCountryAlpha w (requestCode infoPrefix r) [])
    as [[[c st] err] calls] eqn:Hf.
  destruct (InfoHandler_unfold w r Hm Hv _ _ _ _ Hf) as [-> ->].
  unfold first_lookup_status. cbn [length app] in E.
  destruct (respond w 0 (alphaURL (requestCode infoPrefix r)))
    as [|st' body].
  { by injection E as -> -> -> ->. }
  destruct (Z.eqb_spec st' StatusOK) as [->|Hne]; cbn [negb] in E.
  - destruct body as [raw|]; cbn [mbind option_bind].
    + destruct (unmarshalCountries raw) as [[|? ?]|];
        by injection E as -> -> -> ->.
    + by injection E as -> -> -> ->.
  - injection E as -> -> -> ->. done.
Qed.

End InfoRun.

(** Norway's capital and its vector flag reach the info response. *)
Lemma info_success_witness :
  ∃ i, run (InfoHandler (lib:=Sample.lib) Sample.oslo
              (Sample.GET "/countryinfo/v1/info/no"))
       = (writeJSON 200 (PInfo i), [alphaURL "no"])
    ∧ iCapital i = "Oslo"
    ∧ iFlag i = "https://flags.example/no.svg".
Proof.
  destruct (info_success_projection (lib:=Sample.lib) Sample.oslo
              (Sample.GET "/countryinfo/v1/info/no")
              Sample.norway_full_record eq_refl eq_refl eq_refl)
    as (i & Hrun & _ & _ & _ & _ & _ & _ & Hcap & _ & Hflag).
  exists i. split; [exact Hrun|]. split; [exact Hcap|]. exact (Hflag eq_refl).
Defined.

(** A countries provider answering 500 gives 404 on the info endpoint. *)
Lemma info_status_witness :
  (run (InfoHandler (lib:=Sample.lib) Sample.broken
          (Sample.GET "/countryinfo/v1/info/no"))).2 = [alphaURL "no"]
  ∧ StatusCode (run (InfoHandler (lib:=Sample.lib) Sample.broken
                       (Sample.GET "/countryinfo/v1/info/no"))).1 = 404.
Proof.
  exact (info_status_by_first_answer (lib:=Sample.lib) Sample.broken
           (Sample.GET "/countryinfo/v1/info/no") eq_refl eq_refl).
Defined.

(** ** The shape of every response *)

Section ResponseShapes.

Context {lib : GoLib}.
Variable w : World.

(** What the first lookup of a run can return. *)
Lemma first_lookup_cases code :
  (∃ c, fetched_input w code c)
  ∨ (∃ st, fetchCountryAlpha w code [] = ((None, st, None), [alphaURL code]))
  ∨ (∃ st e, fetchCountryAlpha w code [] = ((None, st, Some e), [alphaURL code])).
Proof.
  unfold fetched_input. rewrite fetchCountryAlpha_run. cbn [fst length app].
  destruct (respond w 0 (alphaURL code)) as [|st body]; [eauto 6|].
  destruct (negb (st =? StatusOK)); [eauto 6|].
  destruct body as [raw|]; [|eauto 6].
  destruct (unmarshalCountries raw) as [[|c cs]|]; eauto 6.
Qed.

Lemma info_run_cases r :
  Method r = MethodGet →
  validISO2 (requestCode infoPrefix r) = true →
  (∃ input, fetched_input w (requestCode infoPrefix r) input)
  ∨ run (InfoHandler w r)
    = (writeJSONError StatusNotFound "country not found",
       [alphaURL (requestCode infoPrefix r)])
  ∨ run (InfoHandler w r)
    = (writeJSONError StatusBadGateway "failed to call countries service",
       [alphaURL (requestCode infoPrefix r)]).
Proof.
  intros Hm Hv.
  destruct (first_lookup_cases (requestCode infoPrefix r))
    as [?|[[st E]|(st & e & E)]]; [by left|right..];
    unfold run, InfoHandler, bind; rewrite Hm, String.eqb_refl; cbn [negb];
    cbv zeta;
    change (normalizeISO2 (TrimPrefix (Path r) infoPrefix))
      with (requestCode infoPrefix r);
    rewrite Hv; cbn [negb]; rewrite E; [by left|by right].
Qed.

Lemma exchange_run_cases r :
  Method r = MethodGet →
  validISO2 (requestCode exchangePrefix r) = true →
  (∃ input, fetched_input w (requestCode exchangePrefix r) input)
  ∨ run (ExchangeHandler w r)
    = (writeJSONError StatusNotFound "country not found",
       [alphaURL (requestCode exchangePrefix r)])
  ∨ run (ExchangeHandler w r)
    = (writeJSONError StatusBadGateway "failed to call countries service",
       [alphaURL (requestCode exchangePrefix r)]).
Proof.
  intros Hm Hv.
  destruct (first_lookup_cases (requestCode exchangePrefix r))
    as [?|[[st E]|(st & e & E)]]; [by left|right..];
    unfold run, ExchangeHandler, bind; rewrite Hm, String.eqb_refl; cbn [negb];
    cbv zeta;
    change (normalizeISO2 (TrimPrefix (Path r) exchangePrefix))
      with (requestCode exchangePrefix r);
    rewrite Hv; cbn [negb]; rewrite E; [by left|by right].
Qed.

(** The two responses with which the neighbour loop returns early. *)
Lemma collectNeighbours_abort base borders :
  ∀ acc log resp calls,
  collectNeighbours w base borders acc log = (inl resp, calls) →
  resp = writeJSONError StatusBadGateway
           "failed to call countries service for neighbours"
  ∨ resp = writeJSONError StatusBadGateway
             "countries service failed neighbour lookup".
Proof.
  induction borders as [|cca3 rest IH]; intros acc log resp calls.
  - cbn [collectNeighbours]. unfold ret. discriminate.
  - cbn [collectNeighbours]. cbv zeta. unfold bind, ret.
    repeat case_match; try (intros [= <- <-]; auto); apply IH.
Qed.

(** The responses of the exchange handler once its country is fetched. *)
Lemma exchange_fetched_cases r input :
  Method r = MethodGet →
  validISO2 (requestCode exchangePrefix r) = true →
  fetched_input w (requestCode exchangePrefix r) input →
  (∃ msg, (run (ExchangeHandler w r)).1 = writeJSONError StatusBadGateway msg
          ∧ msg ∈ ["input country has no valid currency";
                   "failed to call countries service for neighbours";
                   "countries service failed neighbour lookup";
                   "failed to call currency service";
                   "currency service returned non-200";
                   "currency service returned result != success"])
  ∨ (∃ x, (run (ExchangeHandler w r)).1 = writeJSON StatusOK (PExchange x)).
Proof.
  intros Hm Hv Hf. rewrite (ExchangeHandler_fetched w r input Hm Hv Hf).
  destruct (_ || _).
  { left. eexists. split; [reflexivity|]. set_solver. }
  destruct (collectNeighbours _ _ _ _ _) as [[resp|neigh] calls] eqn:E.
  { apply collectNeighbours_abort in E as [-> | ->];
      left; eexists; (split; [reflexivity|]); set_solver. }
  destruct (Nat.eqb (size neigh) 0); [right; by eexists|].
  destruct (fetchRates _ _ _) as [[[rr st3] err] calls'].
  cbn [fst].
  destruct err.
  { left. eexists. split; [reflexivity|]. set_solver. }
  destruct rr.
  2:{ left. eexists. split; [reflexivity|]. set_solver. }
  destruct (negb (st3 =? StatusOK)).
  { left. eexists. split; [reflexivity|]. set_solver. }
  destruct (_ && _).
  { left. eexists. split; [reflexivity|]. set_solver. }
  right. by eexists.
Qed.

(** X2. Whatever the request and the upstreams, the info and exchange
    handlers write a JSON response that is either an error object with
    status 400, 404, 405 or 502, or status 200 with the payload of the
    endpoint. *)
Theorem responses_are_errors_or_endpoint_payloads e r :
  ContentType (run (handle e w r)).1 = "application/json"
  ∧ ((∃ st msg, (run (handle e w r)).1 = writeJSONError st msg
                ∧ st ∈ [StatusBadRequest; StatusNotFound;
                        StatusMethodNotAllowed; StatusBadGateway])
     ∨ (∃ v, (run (handle e w r)).1 = writeJSON StatusOK v
             ∧ endpoint_payload e v)).
Proof.
  assert ((∃ st msg, (run (handle e w r)).1 = writeJSONError st msg
                ∧ st ∈ [StatusBadRequest; StatusNotFound;
                        StatusMethodNotAllowed; StatusBadGateway])
     ∨ (∃ v, (run (handle e w r)).1 = writeJSON StatusOK v
             ∧ endpoint_payload e v)) as H.
  { destruct (String.eqb_spec (Method r) MethodGet) as [Hm|Hm].
    2:{ left. exists StatusMethodNotAllowed, "method not allowed".
        split; [|set_solver]. apply String.eqb_neq in Hm.
        destruct e; unfold handle, run, InfoHandler, ExchangeHandler;
          by rewrite Hm. }
    destruct (validISO2 (requestCode (pathPrefix e) r)) eqn:Hv.
    2:{ left. exists StatusBadRequest.
        destruct e; unfold handle, run, InfoHandler, ExchangeHandler;
          rewrite Hm, String.eqb_refl; cbn [negb]; cbv zeta.
        - change (normalizeISO2 (TrimPrefix (Path r) infoPrefix))
            with (requestCode (pathPrefix EInfo) r).
          rewrite Hv. eexists. split; [reflexivity|set_solver].
        - change (normalizeISO2 (TrimPrefix (Path r) exchangePrefix))
            with (requestCode (pathPrefix EExchange) r).
          rewrite Hv. eexists. split; [reflexivity|set_solver]. }
    destruct e; simpl in Hv |- *.
    - destruct (info_run_cases r Hm Hv) as [[input Hf]|[E|E]].
      + right. rewrite (InfoHandler_fetched w r input Hm Hv Hf).
        eexists. split; [reflexivity|exact I].
      + left. rewrite E. do 2 eexists. split; [reflexivity|set_solver].
      + left. rewrite E. do 2 eexists. split; [reflexivity|set_solver].
    - destruct (exchange_run_cases r Hm Hv) as [[input Hf]|[E|E]].
      + destruct (exchange_fetched_cases r input Hm Hv Hf)
          as [(msg & -> & _)|[x ->]].
        * left. do 2 eexists. split; [reflexivity|set_solver].
        * right. eexists. split; [reflexivity|exact I].
      + left. rewrite E. do 2 eexists. split; [reflexivity|set_solver].
      + left. rewrite E. do 2 eexists. split; [reflexivity|set_solver]. }
  split; [|exact H].
  destruct H as [(st & msg & -> & _)|(v & -> & _)]; reflexivity.
Qed.

(** X5. The error "countries service returned non-200" is never written:
    no request and no upstream behaviour makes the info or the exchange
    handler answer with it. *)
Theorem non200_message_never_written e r :
  Payload (run (handle e w r)).1
  ≠ PError {| Error := "countries service returned non-200" |}.
Proof.
  destruct (String.eqb_spec (Method r) MethodGet) as [Hm|Hm].
  2:{ apply String.eqb_neq in Hm.
      destruct e; unfold handle, run, InfoHandler, ExchangeHandler;
        rewrite Hm; discriminate. }
  destruct (validISO2 (requestCode (pathPrefix e) r)) eqn:Hv.
  2:{ destruct e; unfold handle, run, InfoHandler, ExchangeHandler;
        rewrite Hm, String.eqb_refl; cbn [negb]; cbv zeta.
      - change (normalizeISO2 (TrimPrefix (Path r) infoPrefix))
          with (requestCode (pathPrefix EInfo) r).
        rewrite Hv. discriminate.
      - change (normalizeISO2 (TrimPrefix (Path r) exchangePrefix))
          with (requestCode (pathPrefix EExchange) r).
        rewrite Hv. discriminate. }
  destruct e; simpl in Hv |- *.
  - destruct (info_run_cases r Hm Hv) as [[input Hf]|[E|E]].
    + rewrite (InfoHandler_fetched w r input Hm Hv Hf). discriminate.
    + rewrite E. discriminate.
    + rewrite E. discriminate.
  - destruct (exchange_run_cases r Hm Hv) as [[input Hf]|[E|E]].
    + destruct (exchange_fetched_cases r input Hm Hv Hf)
        as [(msg & -> & Hmsg)|[x ->]]; [|discriminate].
      cbn. intros [= ->].
      repeat (apply elem_of_cons in Hmsg as [Hmsg|Hmsg]; [discriminate|]).
      by apply elem_of_nil in Hmsg.
    + rewrite E. discriminate.
    + rewrite E. discriminate.
Qed.

(** X16. For the same valid code and the same upstreams the two endpoints
    agree on a failed first lookup: when the info handler does not answer
    200, the exchange handler writes the very same response after the same
    single call; and when the info handler answers 200, the exchange handler
    answers 200 or 502, never 404. *)
Theorem endpoints_agree_on_first_lookup r1 r2 :
  Method r1 = MethodGet →
  Method r2 = MethodGet →
  requestCode exchangePrefix r2 = requestCode infoPrefix r1 →
  validISO2 (requestCode infoPrefix r1) = true →
  (StatusCode (run (InfoHandler w r1)).1 ≠ StatusOK →
     run (ExchangeHandler w r2) = run (InfoHandler w r1))
  ∧ (StatusCode (run (InfoHandler w r1)).1 = StatusOK →
       StatusCode (run (ExchangeHandler w r2)).1 = StatusOK
       ∨ StatusCode (run (ExchangeHandler w r2)).1 = StatusBadGateway).
Proof.
  intros Hm1 Hm2 Hcode Hv1.
  assert (validISO2 (requestCode exchangePrefix r2) = true) as Hv2
    by (by rewrite Hcode).
  destruct (first_lookup_cases (requestCode infoPrefix r1))
    as [[input Hf]|[[st E]|(st & e & E)]].
  - rewrite (InfoHandler_fetched w r1 input Hm1 Hv1 Hf). split; [done|].
    intros _. rewrite <- Hcode in Hf.
    destruct (exchange_fetched_cases r2 input Hm2 Hv2 Hf)
      as [(msg & -> & _)|[x ->]]; auto.
  - split; [intros _|].
    + unfold run, ExchangeHandler, InfoHandler, bind.
      rewrite Hm1, Hm2, String.eqb_refl. cbn [negb]. cbv zeta.
      change (normalizeISO2 (TrimPrefix (Path r1) infoPrefix))
        with (requestCode infoPrefix r1).
      change (normalizeISO2 (TrimPrefix (Path r2) exchangePrefix))
        with (requestCode exchangePrefix r2).
      rewrite Hv1, Hv2, Hcode. cbn [negb]. rewrite E. done.
    + destruct (InfoHandler_unfold w r1 Hm1 Hv1 _ _ _ _ E) as [_ ->].
      discriminate.
  - split; [intros _|].
    + unfold run, ExchangeHandler, InfoHandler, bind.
      rewrite Hm1, Hm2, String.eqb_refl. cbn [negb]. cbv zeta.
      change (normalizeISO2 (TrimPrefix (Path r1) infoPrefix))
        with (requestCode infoPrefix r1).
      change (normalizeISO2 (TrimPrefix (Path r2) exchangePrefix))
        with (requestCode exchangePrefix r2).
      rewrite Hv1, Hv2, Hcode. cbn [negb]. rewrite E. done.
    + destruct (InfoHandler_unfold w r1 Hm1 Hv1 _ _ _ _ E) as [_ ->].
      discriminate.
Qed.

End ResponseShapes.

(** An empty list for Norway: both endpoints write the same 502. *)
Lemma endpoints_agree_witness :
  run (ExchangeHandler (lib:=Sample.lib) Sample.empty_list
         (Sample.GET "/countryinfo/v1/exchange/no"))
  = run (InfoHandler (lib:=Sample.lib) Sample.empty_list
           (Sample.GET "/countryinfo/v1/info/ NO")).
Proof.
  refine (proj1
    (endpoints_agree_on_first_lookup (lib:=Sample.lib) Sample.empty_list
       (Sample.GET "/countryinfo/v1/info/ NO")
       (Sample.GET "/countryinfo/v1/exchange/no")
       eq_refl eq_refl eq_refl eq_refl) _).
  vm_compute. discriminate.
Defined.

(** ** The neighbour loop, exactly *)

Section FanOutExact.

Context {lib : GoLib}.
Variable w : World.

Lemma delivers_functional g c1 c2 : delivers g c1 → delivers g c2 → c1 = c2.
Proof.
  intros (raw & cs & -> & E1) (raw' & cs' & [= <-] & E2). congruence.
Qed.

(** When the loop runs to its end, every looked-up border code was answered
    with a record, and the set holds the starting set together with exactly
    the codes those records contribute. *)
Lemma collectNeighbours_trace base borders :
  ∀ acc log neigh calls,
  collectNeighbours w base borders acc log = (inr neigh, calls) →
  (∀ k c, lookup_targets borders !! k = Some c →
     ∃ nc, delivers (respond w (length log + k) (alphaURL c)) nc)
  ∧ (∀ ccy, ccy ∈ neigh ↔
       ccy ∈ acc
       ∨ ∃ k c nc, lookup_targets borders !! k = Some c
                   ∧ delivers (respond w (length log + k) (alphaURL c)) nc
                   ∧ contributes base nc ccy).
Proof.
  induction borders as [|cca3 rest IH]; intros acc log neigh calls.
  - cbn [collectNeighbours]. unfold ret. intros [= <- <-]. split.
    + intros k c [=].
    + intros ccy. split; [auto|]. by intros [?|(k & c & nc & [=] & _)].
  - cbn [collectNeighbours]. cbv zeta. rewrite lookup_targets_cons.
    destruct (String.eqb_spec (TrimSpace cca3) "") as [_|Hne]; [apply IH|].
    unfold bind.
    destruct (fetchCountryAlpha w (TrimSpace cca3) log)
      as [[[nc st2] err] log1] eqn:Hf.
    pose proof (fetchCountryAlpha_eq w _ _ _ _ Hf) as ->.
    destruct err as [e|]; [discriminate|].
    destruct nc as [nc|]; [|discriminate].
    assert ((fetchCountryAlpha w (TrimSpace cca3) log).1
            = (Some nc, st2, None)) as Hsome by (by rewrite Hf).
    pose proof Hsome as Hst.
    apply fetchCountryAlpha_some in Hst as (-> & _ & _).
    apply fetchCountryAlpha_delivers in Hsome as Hdel.
    cbn [negb Z.eqb StatusOK Pos.eqb].
    fold (base_of nc).
    assert (step : ∀ acc',
      (∀ ccy, ccy ∈ acc' ↔ ccy ∈ acc ∨ contributes base nc ccy) →
      collectNeighbours w base rest acc'
        (log ++ [alphaURL (TrimSpace cca3)]) = (inr neigh, calls) →
      (∀ k c, (TrimSpace cca3 :: lookup_targets rest) !! k = Some c →
         ∃ nc', delivers (respond w (length log + k) (alphaURL c)) nc')
      ∧ (∀ ccy, ccy ∈ neigh ↔
           ccy ∈ acc
           ∨ ∃ k c nc', (TrimSpace cca3 :: lookup_targets rest) !! k = Some c
               ∧ delivers (respond w (length log + k) (alphaURL c)) nc'
               ∧ contributes base nc' ccy)).
    { intros acc' Hacc E. apply IH in E as [Hall Hset].
      rewrite length_app in Hall, Hset. cbn [length] in Hall, Hset.
      assert (∀ k, (length log + 1 + k = length log + S k)%nat) as Hidx
        by (intros; lia).
      split.
      - intros [|k] c Hk.
        + injection Hk as <-. rewrite Nat.add_0_r. eauto.
        + destruct (Hall k c Hk) as [nc' ?]. exists nc'. by rewrite <- Hidx.
      - intros ccy. rewrite Hset, Hacc. split.
        + intros [[?|Hc]|(k & c & nc' & Hk & Hd & Hc)]; [by left|right..].
          * exists 0%nat, (TrimSpace cca3), nc. rewrite Nat.add_0_r. done.
          * exists (S k), c, nc'. rewrite <- Hidx. done.
        + intros [?|([|k] & c & nc' & Hk & Hd & Hc)]; [by left; left|..].
          * injection Hk as <-. rewrite Nat.add_0_r in Hd.
            rewrite (delivers_functional _ _ _ Hd Hdel) in Hc. by left; right.
          * right. exists k, c, nc'. rewrite Hidx. done. }
    destruct (String.eqb_spec (base_of nc) "") as [Hempty|Hnonempty];
      cbn [orb].
    { apply step. intros ccy. split; [auto|]. intros [?|(-> & Hlen & _)]; [done|].
      by rewrite Hempty in Hlen. }
    destruct (Nat.eqb_spec (String.length (base_of nc)) 3) as [Hlen|Hlen];
      cbn [negb].
    2:{ apply step. intros ccy. split; [auto|].
        by intros [?|(-> & ? & _)]. }
    destruct (String.eqb_spec (base_of nc) base) as [Hb|Hb].
    { apply step. intros ccy. split; [auto|].
      by intros [?|(-> & _ & ?)]. }
    apply step. intros ccy. rewrite elem_of_union, elem_of_singleton.
    unfold contributes. split.
    + intros [->|?]; auto.
    + intros [?|(-> & _)]; auto.
Qed.

(** X9. The neighbour set with which the loop ends holds exactly the codes
    contributed by the records of the looked-up border codes: the
    upper-cased smallest currency key of a neighbour is in the set if and
    only if it is three bytes long and is not the base currency. *)
Theorem neighbour_set_exact code input neigh calls :
  fanout_done w code input neigh calls →
  ∀ ccy, ccy ∈ neigh ↔
    ∃ k c nc, lookup_targets (Borders input) !! k = Some c
              ∧ delivers (respond w (S k) (alphaURL c)) nc
              ∧ contributes (base_of input) nc ccy.
Proof.
  intros [_ Hloop] ccy.
  apply collectNeighbours_trace in Hloop as [_ Hset]. rewrite Hset.
  split; [|auto]. intros [[]%not_elem_of_empty|?]. done.
Qed.

(** X10. The loop over a concatenation of border lists is the loop over the
    first list followed, unless that one returned early, by the loop over
    the second list from the set and the call log reached. *)
Theorem collectNeighbours_app base borders1 borders2 acc log :
  collectNeighbours w base (borders1 ++ borders2) acc log
  = (let '(res, log') := collectNeighbours w base borders1 acc log in
     match res with
     | inl resp => (inl resp, log')
     | inr acc' => collectNeighbours w base borders2 acc' log'
     end).
Proof.
  revert acc log. induction borders1 as [|cca3 rest IH]; intros acc log.
  - reflexivity.
  - cbn [app collectNeighbours]. cbv zeta. unfold bind, ret.
    destruct (String.eqb (TrimSpace cca3) ""); [apply IH|].
    destruct (fetchCountryAlpha w (TrimSpace cca3) log)
      as [[[nc st2] err] log1].
    destruct err; [reflexivity|]. destruct nc; [|reflexivity].
    destruct (negb (st2 =? StatusOK)); [reflexivity|].
    destruct (_ || _); [apply IH|].
    destruct (String.eqb _ base); apply IH.
Qed.

End FanOutExact.

(** ** Where the codes of an exchange response come from *)

Section OutputCodes.

Context {lib : GoLib}.
Variable w : World.
Variable r : Request.
Variable input : countriesCountry.
Hypothesis Hmethod : Method r = MethodGet.
Hypothesis Hvalid : validISO2 (requestCode exchangePrefix r) = true.
Hypothesis Hfetched : fetched_input w (requestCode exchangePrefix r) input.

Local Abbreviation code := (requestCode exchangePrefix r).
Local Abbreviation base := (base_of input).
Local Abbreviation result := (run (ExchangeHandler w r)).

(** A code of three bytes that is the upper-casing of the key picked from a
    currency map comes from a key of that map, as upper-casing keeps the
    empty string. *)
Lemma picked_key_in_map (m : gmap string json) :
  ToUpper "" = "" →
  String.length (ToUpper (firstCurrencyCodeSorted m)) = 3%nat →
  firstCurrencyCodeSorted m ∈ dom m.
Proof.
  intros Hupper Hlen. destruct (decide (m = ∅)) as [->|Hne].
  - by rewrite firstCurrencyCodeSorted_empty, Hupper in Hlen.
  - by apply firstCurrencyCodeSorted_least.
Qed.

(** C8, as the code has it. Once the neighbour loop has ended, the base
    currency is not in the neighbour set.  Every code in that set is three
    bytes long and is the upper-casing of the smallest currency key of a
    record delivered for one of the looked-up border codes.  The base
    currency of an exchange response is three bytes long and is the
    upper-casing of the smallest currency key of the input country; the
    keys of its rate mapping are taken from the neighbour set, so the base
    currency is not among them.  (That the key picked is a key of the
    currency map rests on upper-casing keeping the empty string.) *)
Theorem output_codes_three_bytes_and_base_excluded neigh calls :
  fanout_done w code input neigh calls →
  (base ∉ neigh)
  ∧ (∀ ccy, ccy ∈ neigh →
       String.length ccy = 3%nat
       ∧ ∃ i cca3 nc,
           lookup_targets (Borders input) !! i = Some cca3
           ∧ delivers (respond w (S i) (alphaURL cca3)) nc
           ∧ ccy = ToUpper (firstCurrencyCodeSorted (Currencies nc))
           ∧ (ToUpper "" = "" →
              firstCurrencyCodeSorted (Currencies nc) ∈ dom (Currencies nc)))
  ∧ ∀ x, Payload result.1 = PExchange x →
      BaseCurrency x = base
      ∧ BaseCurrency x = ToUpper (firstCurrencyCodeSorted (Currencies input))
      ∧ (ToUpper "" = "" →
         firstCurrencyCodeSorted (Currencies input) ∈ dom (Currencies input))
      ∧ String.length (BaseCurrency x) = 3%nat
      ∧ dom (ExchangeRates x) ⊆ neigh
      ∧ (BaseCurrency x ∉ dom (ExchangeRates x)).
Proof using Hmethod Hvalid Hfetched.
  intros [Hlen Hloop].
  pose proof (collectNeighbours_admissible w _ _ _ _ _ Hloop) as Hadm.
  pose proof (collectNeighbours_trace w _ _ _ _ _ _ Hloop) as [_ Hset].
  assert (base ∉ neigh) as Hbase.
  { intros Hin. by destruct (Hadm _ Hin) as (_ & ? & _). }
  split; [done|]. split.
  { intros ccy Hin. apply Hset in Hin as [[]%not_elem_of_empty|Hin].
    destruct Hin as (i & cca3 & nc & Hi & Hd & -> & Hlen' & _).
    split; [done|]. exists i, cca3, nc. repeat split; [done..|].
    intros Hupper. by apply picked_key_in_map. }
  rewrite (ExchangeHandler_fetched w r input Hmethod Hvalid Hfetched).
  rewrite (length_3_nonempty _ Hlen), Hloop.
  assert (∀ rates : gmap string float,
            dom (filterRates rates neigh) ⊆ neigh) as Hdom.
  { intros rates ccy [v Hv]%elem_of_dom.
    by apply filterRates_lookup in Hv as [? _]. }
  assert (∀ x, BaseCurrency x = base → dom (ExchangeRates x) ⊆ neigh →
            BaseCurrency x = base
            ∧ BaseCurrency x
              = ToUpper (firstCurrencyCodeSorted (Currencies input))
            ∧ (ToUpper "" = "" →
               firstCurrencyCodeSorted (Currencies input)
               ∈ dom (Currencies input))
            ∧ String.length (BaseCurrency x) = 3%nat
            ∧ dom (ExchangeRates x) ⊆ neigh
            ∧ (BaseCurrency x ∉ dom (ExchangeRates x))) as Hok.
  { intros x Hb Hsub. rewrite Hb.
    split; [done|]. split; [done|].
    split; [intros Hupper; by apply picked_key_in_map|].
    split; [done|]. split; [done|].
    intros Hin. by apply Hbase, Hsub. }
  intros x. destruct (Nat.eqb (size neigh) 0).
  { intros [= <-]. apply Hok; [done|]. cbn. by rewrite dom_empty_L. }
  destruct (fetchRates _ _ _) as [[[rr st3] err] calls'].
  destruct err; [discriminate|]. destruct rr; [|discriminate].
  simpl. repeat case_match; try discriminate.
  intros [= <-]. apply Hok; [done|apply Hdom].
Qed.

End OutputCodes.

(** Germany shares Austria's euro; the neighbour set is CHF alone, and CHF
    is the upper-cased key of the record delivered for a border code. *)
Lemma base_excluded_witness :
  ("EUR" ∉ ({[ "CHF" ]} : gset string))
  ∧ ∃ i cca3 nc,
      lookup_targets (H:=Sample.lib) ["DEU"; "CHE"] !! i = Some cca3
      ∧ delivers (H:=Sample.lib) (respond Sample.austria (S i) (alphaURL cca3)) nc
      ∧ "CHF" = ToUpper (GoLib:=Sample.lib)
                  (firstCurrencyCodeSorted (Currencies nc)).
Proof.
  destruct (output_codes_three_bytes_and_base_excluded (lib:=Sample.lib)
       Sample.austria (Sample.GET "/countryinfo/v1/exchange/at")
       (Sample.record "Austria" ["EUR"] ["DEU"; "CHE"])
       eq_refl eq_refl eq_refl {[ "CHF" ]}
       [alphaURL "at"; alphaURL "DEU"; alphaURL "CHE"])
    as (Hbase & Hcodes & _).
  { split; [reflexivity | vm_compute; reflexivity]. }
  split; [exact Hbase|].
  destruct (Hcodes "CHF") as (_ & i & cca3 & nc & Hi & Hd & Hc & _).
  { apply elem_of_singleton. reflexivity. }
  exists i, cca3, nc. repeat split; assumption.
Defined.

(** The neighbour set of Norway is what Sweden, Finland and Russia
    contribute. *)
Lemma neighbour_set_exact_witness :
  "SEK" ∈ ({[ "SEK" ]} ∪ {[ "EUR" ]} ∪ {[ "RUB" ]} : gset string) ↔
    ∃ k c nc,
      lookup_targets (H:=Sample.lib) ["SWE"; "FIN"; "RUS"] !! k = Some c
      ∧ delivers (H:=Sample.lib) (respond Sample.nordic (S k) (alphaURL c)) nc
      ∧ contributes (H:=Sample.lib) "NOK" nc "SEK".
Proof.
  refine (neighbour_set_exact (lib:=Sample.lib) Sample.nordic "no"
            (Sample.record "Norway" ["NOK"] ["SWE"; "FIN"; "RUS"])
            ({[ "SEK" ]} ∪ {[ "EUR" ]} ∪ {[ "RUB" ]})
            [alphaURL "no"; alphaURL "SWE"; alphaURL "FIN"; alphaURL "RUS"] _
            "SEK").
  split; [reflexivity | vm_compute; reflexivity].
Defined.

(** ** The exchange handler: failures after the first lookup, and its calls *)

Section ExchangeFurther.

Context {lib : GoLib}.
Variable w : World.
Variable r : Request.
Variable input : countriesCountry.
Hypothesis Hmethod : Method r = MethodGet.
Hypothesis Hvalid : validISO2 (requestCode exchangePrefix r) = true.
Hypothesis Hfetched : fetched_input w (requestCode exchangePrefix r) input.

Local Abbreviation code := (requestCode exchangePrefix r).
Local Abbreviation base := (base_of input).
Local Abbreviation result := (run (ExchangeHandler w r)).

(** X6. If the answer to the lookup of any border code does not deliver a
    record - a 200 whose body cannot be read, is null, is an empty list or
    holds an element that fails to decode, as well as a failure or another
    status - the exchange handler responds 502 with an error payload. *)
Theorem undelivered_neighbour_aborts_with_502 k cca3 :
  lookup_targets (Borders input) !! k = Some cca3 →
  (∀ nc, ¬ delivers (respond w (S k) (alphaURL cca3)) nc) →
  StatusCode result.1 = StatusBadGateway ∧ ∃ e, Payload result.1 = PError e.
Proof using Hmethod Hvalid Hfetched.
  intros Hk Hno.
  rewrite (ExchangeHandler_fetched w r input Hmethod Hvalid Hfetched).
  destruct (_ || _); [by split; [|eexists]|].
  destruct (collectNeighbours _ _ _ _ _) as [[resp|neigh] calls] eqn:E.
  - apply collectNeighbours_spec in E as (? & ? & _). done.
  - apply collectNeighbours_trace in E as [Hall _].
    destruct (Hall k cca3 Hk) as [nc Hnc]. by destruct (Hno nc).
Qed.

(** X7. With a non-empty neighbour set, the exchange handler responds 502
    with an error payload, after its one request to the rate provider,
    unless a rate set is fetched whose result marker is empty or
    "success". *)
Theorem rate_failure_answered_502 neigh calls :
  fanout_done w code input neigh calls →
  neigh ≠ ∅ →
  (∀ rates, fetched_rates w base calls rates →
            Result rates ≠ "" ∧ Result rates ≠ "success") →
  StatusCode result.1 = StatusBadGateway
  ∧ (∃ e, Payload result.1 = PError e)
  ∧ result.2 = calls ++ [ratesURL base].
Proof using Hmethod Hvalid Hfetched.
  intros [Hlen Hloop] Hne Hbad.
  rewrite (ExchangeHandler_fetched w r input Hmethod Hvalid Hfetched).
  rewrite (length_3_nonempty _ Hlen), Hloop.
  destruct (Nat.eqb_spec (size neigh) 0) as [Hsz|_].
  { apply size_empty_inv, leibniz_equiv in Hsz. done. }
  unfold fetched_rates in Hbad.
  pose proof (fetchRates_calls w base calls) as Hcalls.
  destruct (fetchRates w base calls) as [[[rr st3] err] calls'].
  simpl in Hcalls. subst calls'. cbn [fst snd] in *.
  assert (∀ msg, StatusCode (writeJSONError StatusBadGateway msg)
                  = StatusBadGateway
                  ∧ (∃ e, Payload (writeJSONError StatusBadGateway msg)
                          = PError e)
                  ∧ calls ++ [ratesURL base] = calls ++ [ratesURL base])
    as Hgw by (intros; split; [done|split; [by eexists|done]]).
  destruct err; [apply Hgw|].
  destruct rr as [rr|]; [|apply Hgw].
  destruct (Z.eqb_spec st3 StatusOK) as [->|]; cbn [negb]; [|apply Hgw].
  destruct (Hbad rr eq_refl) as [H1 H2].
  apply String.eqb_neq in H1, H2. rewrite H1, H2. cbn [negb andb].
  apply Hgw.
Qed.

(** X17. Once the neighbour loop has ended, the calls of the run are, in
    order: the lookup of the input code, one lookup for each border entry
    that is not blank after trimming, and - exactly when the neighbour set
    is not empty - one request to the rate provider for the base currency.
    An exchange payload names the input country. *)
Theorem exchange_calls_in_order neigh calls :
  fanout_done w code input neigh calls →
  result.2
  = alphaURL code :: (alphaURL <$> lookup_targets (Borders input))
    ++ (if decide (neigh = ∅) then [] else [ratesURL base])
  ∧ ∀ x, Payload result.1 = PExchange x → Country x = Common (Name input).
Proof using Hmethod Hvalid Hfetched.
  intros [Hlen Hloop].
  rewrite (ExchangeHandler_fetched w r input Hmethod Hvalid Hfetched).
  rewrite (length_3_nonempty _ Hlen), Hloop.
  apply collectNeighbours_spec in Hloop as (-> & _).
  destruct (Nat.eqb_spec (size neigh) 0) as [Hsz|Hsz].
  { apply size_empty_inv, leibniz_equiv in Hsz. subst neigh.
    rewrite decide_True by done. rewrite app_nil_r.
    split; [done|]. by intros x [= <-]. }
  rewrite decide_False by (intros ->; by rewrite size_empty in Hsz).
  pose proof (fetchRates_calls w base
                ([alphaURL code] ++ (alphaURL <$> lookup_targets (Borders input))))
    as Hcalls.
  destruct (fetchRates _ _ _) as [[[rr st3] err] calls'].
  simpl in Hcalls. subst calls'. split; [done|].
  intros x. cbn [fst].
  destruct err; [discriminate|]. destruct rr; [|discriminate].
  repeat case_match; try discriminate. by intros [= <-].
Qed.

End ExchangeFurther.

(** ** The rate provider is asked at most once, last *)

Section RateCalls.

Context {lib : GoLib}.
Variable w : World.

Lemma ratesURL_is_rates_call b : is_rates_call (ratesURL b) = true.
Proof. reflexivity. Qed.

(** X8. In every run of the exchange handler the calls are lookups at the
    countries provider (URLs of the form [alphaURL c]), followed by at most
    one request to the rate provider, which is then the last call; the info
    handler makes at most one call, a lookup at the countries provider, and
    never calls the rate provider. *)
Theorem rate_provider_called_at_most_once_last r :
  (∃ codes tail,
     (run (ExchangeHandler w r)).2 = (alphaURL <$> codes) ++ tail
     ∧ Forall (λ url, is_rates_call url = false) (alphaURL <$> codes)
     ∧ (tail = []
        ∨ ∃ b, tail = [ratesURL b] ∧ is_rates_call (ratesURL b) = true))
  ∧ (∃ codes, (run (InfoHandler w r)).2 = alphaURL <$> codes
              ∧ (length codes ≤ 1)%nat)
  ∧ Forall (λ url, is_rates_call url = false) (run (InfoHandler w r)).2.
Proof.
  assert (∀ cs, Forall (λ url, is_rates_call url = false) (alphaURL <$> cs))
    as Halpha.
  { intros cs. apply Forall_fmap, Forall_forall. by intros. }
  assert (∃ codes, (run (InfoHandler w r)).2 = alphaURL <$> codes
                   ∧ (length codes ≤ 1)%nat) as Hinfo.
  { destruct (String.eqb_spec (Method r) MethodGet) as [Hm|Hm].
    2:{ apply String.eqb_neq in Hm. unfold run, InfoHandler. rewrite Hm.
        exists []. split; [done|cbn; lia]. }
    destruct (validISO2 (requestCode infoPrefix r)) eqn:Hv.
    2:{ unfold run, InfoHandler. rewrite Hm, String.eqb_refl.
        cbn [negb]. cbv zeta.
        change (normalizeISO2 (TrimPrefix (Path r) infoPrefix))
          with (requestCode infoPrefix r).
        rewrite Hv. exists []. split; [done|cbn; lia]. }
    exists [requestCode infoPrefix r]. split; [|cbn; lia].
    destruct (info_run_cases w r Hm Hv) as [[input Hf]|[E|E]].
    + by rewrite (InfoHandler_fetched w r input Hm Hv Hf).
    + by rewrite E.
    + by rewrite E. }
  split; [|split; [exact Hinfo|]].
  2:{ destruct Hinfo as (codes & -> & _). apply Halpha. }
  destruct (String.eqb_spec (Method r) MethodGet) as [Hm|Hm].
  2:{ apply String.eqb_neq in Hm. unfold run, ExchangeHandler. rewrite Hm.
      exists [], []. repeat split; [constructor|auto]. }
  destruct (validISO2 (requestCode exchangePrefix r)) eqn:Hv.
  2:{ unfold run, ExchangeHandler. rewrite Hm, String.eqb_refl.
      cbn [negb]. cbv zeta.
      change (normalizeISO2 (TrimPrefix (Path r) exchangePrefix))
        with (requestCode exchangePrefix r).
      rewrite Hv. exists [], []. repeat split; [constructor|auto]. }
  destruct (exchange_run_cases w r Hm Hv) as [[input Hf]|[E|E]].
  2,3: rewrite E; exists [requestCode exchangePrefix r], [];
    split; [done|]; split; [apply Halpha|auto].
  rewrite (ExchangeHandler_fetched w r input Hm Hv Hf).
  destruct (_ || _).
  { exists [requestCode exchangePrefix r], [].
    split; [done|]. split; [apply Halpha|auto]. }
  destruct (collectNeighbours _ _ _ _ _) as [[resp|neigh] calls] eqn:E;
    apply collectNeighbours_spec in E.
  { destruct E as (_ & _ & n & ->).
    exists (requestCode exchangePrefix r
            :: take n (lookup_targets (Borders input))), [].
    cbn [snd]. split; [by rewrite app_nil_r|]. split; [apply Halpha|auto]. }
  destruct E as (-> & _).
  destruct (Nat.eqb (size neigh) 0).
  { exists (requestCode exchangePrefix r :: lookup_targets (Borders input)), [].
    cbn [snd]. split; [by rewrite app_nil_r|]. split; [apply Halpha|auto]. }
  pose proof (fetchRates_calls w (base_of input)
    ([alphaURL (requestCode exchangePrefix r)]
     ++ (alphaURL <$> lookup_targets (Borders input)))) as Hcalls.
  destruct (fetchRates _ _ _) as [[[rr st3] err] calls'].
  simpl in Hcalls. subst calls'. cbn [snd].
  exists (requestCode exchangePrefix r :: lookup_targets (Borders input)),
         [ratesURL (base_of input)].
  split; [reflexivity|]. split; [apply Halpha|]. right.
  eexists. split; [reflexivity|apply ratesURL_is_rates_call].
Qed.

End RateCalls.

(** Sweden answers 200 with an empty list: the request for Norway fails. *)
Lemma undelivered_neighbour_witness :
  StatusCode (run (ExchangeHandler (lib:=Sample.lib) Sample.garbled_neighbour
                     (Sample.GET "/countryinfo/v1/exchange/no"))).1 = 502
  ∧ ∃ e, Payload (run (ExchangeHandler (lib:=Sample.lib)
                         Sample.garbled_neighbour
                         (Sample.GET "/countryinfo/v1/exchange/no"))).1
         = PError e.
Proof.
  apply (undelivered_neighbour_aborts_with_502 (lib:=Sample.lib)
           Sample.garbled_neighbour
           (Sample.GET "/countryinfo/v1/exchange/no")
           (Sample.record "Norway" ["NOK"] ["SWE"])
           eq_refl eq_refl eq_refl 0%nat "SWE" eq_refl).
  intros nc (raw & cs & Hg & Hu). vm_compute in Hg.
  injection Hg as <-. discriminate Hu.
Defined.

(** The rate provider answers 500: the request for Norway fails after the
    rate request. *)
Lemma rate_failure_witness :
  StatusCode (run (ExchangeHandler (lib:=Sample.lib) Sample.rates_down
                     (Sample.GET "/countryinfo/v1/exchange/no"))).1 = 502
  ∧ (∃ e, Payload (run (ExchangeHandler (lib:=Sample.lib) Sample.rates_down
                          (Sample.GET "/countryinfo/v1/exchange/no"))).1
          = PError e)
  ∧ (run (ExchangeHandler (lib:=Sample.lib) Sample.rates_down
            (Sample.GET "/countryinfo/v1/exchange/no"))).2
    = [alphaURL "no"; alphaURL "SWE"] ++ [ratesURL "NOK"].
Proof.
  apply (rate_failure_answered_502 (lib:=Sample.lib) Sample.rates_down
           (Sample.GET "/countryinfo/v1/exchange/no")
           (Sample.record "Norway" ["NOK"] ["SWE"])
           eq_refl eq_refl eq_refl {[ "SEK" ]} [alphaURL "no"; alphaURL "SWE"]).
  - split; [reflexivity | vm_compute; reflexivity].
  - vm_compute. discriminate.
  - intros rates Hr. vm_compute in Hr. discriminate Hr.
Defined.

(** Norway's run: its own lookup, three neighbours, one rate request. *)
Lemma exchange_calls_witness :
  (run (ExchangeHandler (lib:=Sample.lib) Sample.nordic
          (Sample.GET "/countryinfo/v1/exchange/no"))).2
  = [alphaURL "no"; alphaURL "SWE"; alphaURL "FIN"; alphaURL "RUS";
     ratesURL "NOK"].
Proof.
  refine (proj1
    (exchange_calls_in_order (lib:=Sample.lib) Sample.nordic
       (Sample.GET "/countryinfo/v1/exchange/no")
       (Sample.record "Norway" ["NOK"] ["SWE"; "FIN"; "RUS"])
       eq_refl eq_refl eq_refl
       ({[ "SEK" ]} ∪ {[ "EUR" ]} ∪ {[ "RUB" ]})
       [alphaURL "no"; alphaURL "SWE"; alphaURL "FIN"; alphaURL "RUS"] _)).
  split; [reflexivity | vm_compute; reflexivity].
Defined.

(** ** Picking the currency key, and filtering the rates *)

Section KeySelection.

Context {lib : GoLib}.

(** A key that is no larger than any key of the map is the one picked. *)
Lemma firstCurrencyCodeSorted_unique (m : gmap string json) k :
  k ∈ dom m → (∀ k', k' ∈ dom m → String.le k k') →
  firstCurrencyCodeSorted m = k.
Proof.
  intros Hin Hle.
  assert (m ≠ ∅) as Hne by (intros ->; by rewrite dom_empty_L in Hin).
  destruct (firstCurrencyCodeSorted_least m Hne) as [Hin' Hle'].
  apply (anti_symm String.le); auto.
Qed.

Lemma empty_string_least k : String.le "" k.
Proof. by destruct k. Qed.

(** X11. For a non-empty currency map the key picked is characterised by
    being a key of the map that no other key precedes in byte-wise
    lexicographic order; the values stored under the keys play no role. *)
Theorem firstCurrencyCodeSorted_iff_least (m : gmap string json) k :
  m ≠ ∅ →
  firstCurrencyCodeSorted m = k
  ↔ k ∈ dom m ∧ ∀ k', k' ∈ dom m → String.le k k'.
Proof.
  intros Hne. split.
  - intros <-. by apply firstCurrencyCodeSorted_least.
  - intros [? ?]. by apply firstCurrencyCodeSorted_unique.
Qed.

(** X12. Adding a key to a currency map changes the key picked only if the
    new key is not larger than the one picked before; for an empty map the
    new key is picked. *)
Theorem firstCurrencyCodeSorted_insert (m : gmap string json) k v :
  firstCurrencyCodeSorted (<[ k := v ]> m)
  = if Nat.eqb (size m) 0 then k
    else if String.leb k (firstCurrencyCodeSorted m) then k
         else firstCurrencyCodeSorted m.
Proof.
  destruct (Nat.eqb_spec (size m) 0) as [Hsz|Hsz].
  { apply map_size_empty_inv in Hsz as ->.
    apply firstCurrencyCodeSorted_unique.
    - rewrite dom_insert_L. set_solver.
    - intros k'. rewrite dom_insert_L, dom_empty_L.
      intros [->%elem_of_singleton|[]%not_elem_of_empty]%elem_of_union.
      done. }
  assert (m ≠ ∅) as Hne by (intros ->; by rewrite map_size_empty in Hsz).
  destruct (firstCurrencyCodeSorted_least m Hne) as [Hin Hle].
  destruct (String.leb k (firstCurrencyCodeSorted m)) eqn:Hk;
    apply firstCurrencyCodeSorted_unique.
  - rewrite dom_insert_L. apply elem_of_union_l, elem_of_singleton. done.
  - intros k'. rewrite dom_insert_L.
    intros [->%elem_of_singleton|Hk']%elem_of_union; [done|].
    trans (firstCurrencyCodeSorted m); [|by apply Hle].
    unfold String.le. by rewrite Hk.
  - rewrite dom_insert_L. by apply elem_of_union_r.
  - intros k'. rewrite dom_insert_L.
    intros [->%elem_of_singleton|Hk']%elem_of_union; [|by apply Hle].
    destruct (total String.le (firstCurrencyCodeSorted m) k) as [?|Hc];
      [done|].
    unfold String.le in Hc. by rewrite Hk in Hc.
Qed.

(** X14. The loop that fills the rate mapping computes the restriction of
    the fetched rates to the neighbour set: the same map as filtering the
    rates by membership of the key, with exactly the keys common to both. *)
Theorem filterRates_is_restriction (rates : gmap string float)
    (neigh : gset string) :
  filterRates rates neigh = filter (λ kv, kv.1 ∈ neigh) rates
  ∧ dom (filterRates rates neigh) = neigh ∩ dom rates.
Proof.
  split.
  - apply map_eq. intros k. apply option_eq. intros v.
    rewrite filterRates_lookup, map_lookup_filter_Some. simpl. tauto.
  - apply set_eq. intros k. rewrite elem_of_intersection, !elem_of_dom.
    unfold is_Some. setoid_rewrite filterRates_lookup. split.
    + intros (v & ? & ?). eauto.
    + intros [? [v ?]]. eauto.
Qed.

(** X15. [validISO2] accepts a string exactly when it is two bytes long and
    each byte is one of the letters a to z; a string holding a byte outside
    ASCII is never accepted, however the bytes decode into runes. *)
Theorem validISO2_two_lowercase_bytes s :
  validISO2 s = true
  ↔ String.length s = 2%nat
    ∧ Forall is_lower_az (list_ascii_of_string s).
Proof.
  rewrite validISO2_spec. unfold matches_az2. split.
  - intros (a & b & -> & Ha & Hb). split; [done|]. cbn.
    apply Forall_cons_2; [done|]. apply Forall_cons_2; [done|].
    apply Forall_nil_2.
  - intros [Hlen Hall]. destruct s as [|a [|b [|c s]]]; try discriminate.
    cbn in Hall. apply Forall_cons in Hall as [Ha Hall].
    apply Forall_cons in Hall as [Hb _]. eauto.
Qed.

End KeySelection.

Section BlankKey.

Context {lib : GoLib}.
Variable w : World.
Variable r : Request.
Variable input : countriesCountry.
Hypothesis Hmethod : Method r = MethodGet.
Hypothesis Hvalid : validISO2 (requestCode exchangePrefix r) = true.
Hypothesis Hfetched : fetched_input w (requestCode exchangePrefix r) input.

(** X13. A currency map that has the empty string among its keys is
    answered 502 "input country has no valid currency" after the first
    lookup, whatever other keys it has: the empty key sorts first. *)
Theorem blank_currency_key_answered_502 :
  ToUpper "" = "" →
  "" ∈ dom (Currencies input) →
  run (ExchangeHandler w r)
  = (writeJSONError StatusBadGateway "input country has no valid currency",
     [alphaURL (requestCode exchangePrefix r)]).
Proof using Hmethod Hvalid Hfetched.
  intros Hupper Hin.
  rewrite (ExchangeHandler_fetched w r input Hmethod Hvalid Hfetched).
  unfold base_of.
  rewrite (firstCurrencyCodeSorted_unique (Currencies input) "" Hin
             (λ k _, empty_string_least k)).
  by rewrite Hupper.
Qed.

End BlankKey.

(** A currency map with the keys "" and "NOK": 502. *)
Lemma blank_currency_key_witness :
  run (ExchangeHandler (lib:=Sample.lib) Sample.blank_key
         (Sample.GET "/countryinfo/v1/exchange/xx"))
  = (writeJSONError 502 "input country has no valid currency",
     [alphaURL "xx"]).
Proof.
  apply (blank_currency_key_answered_502 (lib:=Sample.lib) Sample.blank_key
           (Sample.GET "/countryinfo/v1/exchange/xx")
           (Sample.record "Nowhere" [""; "NOK"] [])
           eq_refl eq_refl eq_refl eq_refl).
  vm_compute. reflexivity.
Defined.

(** Of the keys USD and PAB, PAB is the one picked. *)
Lemma firstCurrencyCodeSorted_witness :
  "PAB" ∈ dom (Currencies (Sample.record "Panama" ["USD"; "PAB"] []))
  ∧ ∀ k', k' ∈ dom (Currencies (Sample.record "Panama" ["USD"; "PAB"] [])) →
          String.le "PAB" k'.
Proof.
  refine (proj1 (firstCurrencyCodeSorted_iff_least
            (Currencies (Sample.record "Panama" ["USD"; "PAB"] [])) "PAB" _)
            eq_refl).
  vm_compute. discriminate.
Defined.

(** ** What the two clients return *)

Section ClientResults.

Context {lib : GoLib}.
Variable w : World.

(** X18. [fetchCountryAlpha] makes exactly one call, the lookup of the code
    at the countries provider, and returns one of three things: a record
    with status 200 and a nil error, when the answer delivers it; a nil
    record with status 0 and an error; or a nil record with a nil error and
    the status of the answer, which then is not 200. *)
Theorem fetchCountryAlpha_results code log :
  (fetchCountryAlpha w code log).2 = log ++ [alphaURL code]
  ∧ match (fetchCountryAlpha w code log).1 with
    | (c, st, err) =>
      (∃ rec, c = Some rec ∧ st = StatusOK ∧ err = None
              ∧ delivers (respond w (length log) (alphaURL code)) rec)
      ∨ (c = None ∧ st = 0 ∧ is_Some err)
      ∨ (c = None ∧ err = None ∧ st ≠ StatusOK
         ∧ ∃ body, respond w (length log) (alphaURL code) = Responded st body)
    end.
Proof.
  rewrite fetchCountryAlpha_run. split; [done|]. cbn [fst].
  destruct (respond w (length log) (alphaURL code)) as [|st' body];
    [right; left; eauto|].
  destruct (Z.eqb_spec st' StatusOK) as [->|Hne]; cbn [negb];
    [|right; right; eauto].
  destruct body as [raw|]; [|right; left; eauto].
  destruct (unmarshalCountries raw) as [[|c' cs]|] eqn:E;
    [right; left; eauto| |right; left; eauto].
  left. exists c'. repeat split. by exists raw, cs.
Qed.

(** X19. [fetchRates] makes exactly one call, the request for the base
    currency at the rate provider, and returns one of three things: a rate
    set with status 200 and a nil error, when the answer is a 200 whose body
    decodes into it; a nil rate set with status 0 and an error; or a nil
    rate set with a nil error and the status of the answer, which then is
    not 200. *)
Theorem fetchRates_results base log :
  (fetchRates w base log).2 = log ++ [ratesURL base]
  ∧ match (fetchRates w base log).1 with
    | (rates, st, err) =>
      (∃ rr raw, rates = Some rr ∧ st = StatusOK ∧ err = None
                 ∧ respond w (length log) (ratesURL base)
                   = Responded StatusOK (Some raw)
                 ∧ unmarshalRates raw = Some rr)
      ∨ (rates = None ∧ st = 0 ∧ is_Some err)
      ∨ (rates = None ∧ err = None ∧ st ≠ StatusOK
         ∧ ∃ body, respond w (length log) (ratesURL base) = Responded st body)
    end.
Proof.
  split; [apply fetchRates_calls|].
  unfold fetchRates, bind, httpClient_Get, ret. fold (ratesURL base).
  destruct (respond w (length log) (ratesURL base)) as [|st' body];
    [right; left; eauto|].
  destruct (Z.eqb_spec st' StatusOK) as [->|Hne]; cbn [negb];
    [|right; right; eauto].
  destruct body as [raw|]; cbn [mbind option_bind];
    [|right; left; eauto].
  destruct (unmarshalRates raw) as [rr|] eqn:E; [|right; left; eauto].
  left. exists rr, raw. done.
Qed.

End ClientResults.
